(** * Code relationship graph engine: extraction, store, patterns, export

    A shallow embedding of [mcp_server/enhanced_code_graph_server.py]
    (class [EnhancedCodeGraphServer]) and the properties its specification
    states about it.

    Conventions of the embedding.
    - Text is a [string] of characters; the case mappings and the
      whitespace class below are the ASCII part of Python's [str] methods.
    - A Python [dict] is an insertion-ordered association list ([dict_set]
      replaces in place or appends), because the code iterates
      [self.nodes.values()] and [entity_groups.items()] in insertion order.
    - [self] is an explicit [server_state] record threaded through the
      operations; the file system read by [analyze_specific_files] is an
      explicit function from paths to what [open]/[read] would do.
    - The networkx mirror [self.code_graph], the SQLite mirror and the
      logger are written but never read by the operations below; they are
      not part of the state, and the writes to them are taken to
      succeed. *)

From Stdlib Require Import String Ascii List Arith Bool Lia QArith.
Import ListNotations.
Open Scope string_scope.
Open Scope list_scope.
Open Scope nat_scope.

(** String concatenation, as [+] on Python strings and in f-strings. *)
Infix "^^" := String.append (at level 60, right associativity).

Set Implicit Arguments.

(** ** Python string methods *)

Module PyStr.

Definition code (c : ascii) : nat := nat_of_ascii c.

Definition in_range (lo hi : nat) (c : ascii) : bool :=
  (lo <=? code c) && (code c <=? hi).

(** [str.isspace] on one ASCII character: TAB..CR, FS..US and SPACE. *)
Definition is_space (c : ascii) : bool :=
  in_range 9 13 c || in_range 28 31 c || (code c =? 32).

Definition upper_char (c : ascii) : ascii :=
  if in_range 97 122 c then ascii_of_nat (code c - 32) else c.

Definition lower_char (c : ascii) : ascii :=
  if in_range 65 90 c then ascii_of_nat (code c + 32) else c.

Fixpoint map_chars (f : ascii -> ascii) (s : string) : string :=
  match s with
  | EmptyString => EmptyString
  | String c t => String (f c) (map_chars f t)
  end.

(** [s.upper()] and [s.lower()] *)
Definition upper : string -> string := map_chars upper_char.
Definition lower : string -> string := map_chars lower_char.

Fixpoint rev_onto (s acc : string) : string :=
  match s with
  | EmptyString => acc
  | String c t => rev_onto t (String c acc)
  end.

Definition rev (s : string) : string := rev_onto s EmptyString.

Fixpoint lstrip_by (p : ascii -> bool) (s : string) : string :=
  match s with
  | EmptyString => EmptyString
  | String c t => if p c then lstrip_by p t else s
  end.

Definition strip_by (p : ascii -> bool) (s : string) : string :=
  rev (lstrip_by p (rev (lstrip_by p s))).

(** [s.strip()] *)
Definition strip : string -> string := strip_by is_space.

Fixpoint mem_char (c : ascii) (cs : string) : bool :=
  match cs with
  | EmptyString => false
  | String d t => Ascii.eqb c d || mem_char c t
  end.

(** [s.strip(chars)] *)
Definition strip_chars (cs : string) : string -> string :=
  strip_by (fun c => mem_char c cs).

(** [s.split(sep)] for a one-character separator: never empty, a
    trailing separator gives a trailing empty piece. *)
Fixpoint split_on (sep : ascii) (s : string) : list string :=
  match s with
  | EmptyString => [EmptyString]
  | String c t =>
      if Ascii.eqb c sep then EmptyString :: split_on sep t
      else match split_on sep t with
           | [] => [String c EmptyString]
           | piece :: rest => String c piece :: rest
           end
  end.

(** [s.count(c)] for a one-character needle *)
Fixpoint count_char (c : ascii) (s : string) : nat :=
  match s with
  | EmptyString => 0
  | String d t => (if Ascii.eqb c d then 1 else 0) + count_char c t
  end.

(** [s.startswith(p)] *)
Definition startswith (p s : string) : bool := String.prefix p s.

(** [s.endswith(p)] *)
Definition endswith (p s : string) : bool := String.prefix (rev p) (rev s).

(** [sub in s] *)
Fixpoint contains (sub s : string) : bool :=
  String.prefix sub s ||
  match s with
  | EmptyString => false
  | String _ t => contains sub t
  end.

(** [s[:-n]] for [n > 0] *)
Definition drop_last (n : nat) (s : string) : string :=
  substring 0 (String.length s - n) s.

(** [s[n:]] *)
Fixpoint drop (n : nat) (s : string) : string :=
  match n, s with
  | 0, _ => s
  | S _, EmptyString => EmptyString
  | S m, String _ t => drop m t
  end.

Definition newline : ascii := ascii_of_nat 10.

(** [sep.join(parts)] *)
Fixpoint join (sep : string) (parts : list string) : string :=
  match parts with
  | [] => EmptyString
  | [p] => p
  | p :: rest => p ^^ sep ^^ join sep rest
  end.

End PyStr.

(** ** The fragment of Python's [re] the extractors use

    A backtracking matcher with Python's priorities: alternatives are
    tried left to right, quantifiers are greedy, and the first successful
    path wins.  The continuation [k] is the rest of the pattern. *)

Module Re.

Inductive cls_item : Type :=
| CChar (c : ascii)
| CRange (lo hi : ascii)
| CSpace.

Inductive regex : Type :=
| RLit (s : string)
| RSet (negated : bool) (items : list cls_item)
| RSeq (r1 r2 : regex)
| RAlt (r1 r2 : regex)
| RStar (r : regex)
| RGroup (i : nat) (r : regex).

Definition REps : regex := RLit EmptyString.
Definition ROpt (r : regex) : regex := RAlt r REps.
Definition RPlus (r : regex) : regex := RSeq r (RStar r).

(** [\s] *)
Definition RSpace : regex := RSet false [CSpace].

Definition item_matches (c : ascii) (it : cls_item) : bool :=
  match it with
  | CChar d => Ascii.eqb c d
  | CRange lo hi => PyStr.in_range (PyStr.code lo) (PyStr.code hi) c
  | CSpace => PyStr.is_space c
  end.

Definition set_matches (negated : bool) (items : list cls_item) (c : ascii) : bool :=
  xorb negated (existsb (item_matches c) items).

(** Captured groups, most recent binding first. *)
Definition captures : Type := list (nat * string).

Fixpoint group (i : nat) (caps : captures) : option string :=
  match caps with
  | [] => None
  | (j, s) :: rest => if Nat.eqb i j then Some s else group i rest
  end.

Definition consumed (before after : string) : string :=
  substring 0 (String.length before - String.length after) before.

Fixpoint run (A : Type) (r : regex) (s : string) (caps : captures)
         (k : string -> captures -> option A) {struct r} : option A :=
  match r with
  | RLit lit =>
      if String.prefix lit s then k (PyStr.drop (String.length lit) s) caps
      else None
  | RSet negated items =>
      match s with
      | EmptyString => None
      | String c t => if set_matches negated items c then k t caps else None
      end
  | RSeq r1 r2 => run r1 s caps (fun s' caps' => run r2 s' caps' k)
  | RAlt r1 r2 =>
      match run r1 s caps k with
      | Some x => Some x
      | None => run r2 s caps k
      end
  | RStar r1 =>
      (fix loop (fuel : nat) (s : string) (caps : captures) : option A :=
         match fuel with
         | 0 => k s caps
         | S fuel' =>
             match run r1 s caps
                       (fun s' caps' =>
                          if String.length s' <? String.length s
                          then loop fuel' s' caps' else None) with
             | Some x => Some x
             | None => k s caps
             end
         end) (String.length s) s caps
  | RGroup i r1 =>
      run r1 s caps (fun s' caps' => k s' ((i, consumed s s') :: caps'))
  end.

(** A match: the groups and the text after the match. *)
Record match_result : Type := MkMatch { groups : captures; rest : string }.

(** [re.match(r, s)] *)
Definition re_match (r : regex) (s : string) : option match_result :=
  run r s [] (fun s' caps => Some (MkMatch caps s')).

(** [re.search(r, s)] *)
Fixpoint re_search (r : regex) (s : string) : option match_result :=
  match re_match r s with
  | Some m => Some m
  | None =>
      match s with
      | EmptyString => None
      | String _ t => re_search r t
      end
  end.

(** [re.finditer(r, s)]: successive non-overlapping matches.  After an
    empty match the scan moves on by one character. *)
Fixpoint finditer_from (fuel : nat) (r : regex) (s : string) : list match_result :=
  match fuel with
  | 0 => []
  | S fuel' =>
      match re_search r s with
      | None => []
      | Some m =>
          m :: (if String.length (rest m) <? String.length s
                then finditer_from fuel' r (rest m)
                else match rest m with
                     | EmptyString => []
                     | String _ t => finditer_from fuel' r t
                     end)
      end
  end.

Definition finditer (r : regex) (s : string) : list match_result :=
  finditer_from (S (String.length s)) r s.

(** [m.group(i)] of a group that took part in the match *)
Definition group_of (i : nat) (m : match_result) : string :=
  match group i (groups m) with
  | Some s => s
  | None => EmptyString
  end.

(** Concatenation of the pieces of a pattern, and alternation. *)
Definition cat (rs : list regex) : regex := fold_right RSeq REps rs.
Definition alt (r : regex) (rs : list regex) : regex := fold_left RAlt rs r.

End Re.

(** ** Python dictionaries with string keys

    Insertion-ordered: assigning to a key that is present replaces the
    value where it stands, assigning to a new key appends. *)

Section Dict.

Variable V : Type.

Definition dict : Type := list (string * V).

(** [d.get(k)] *)
Fixpoint dict_get (k : string) (d : dict) : option V :=
  match d with
  | [] => None
  | (k', v) :: rest => if String.eqb k k' then Some v else dict_get k rest
  end.

(** [k in d] *)
Definition dict_mem (k : string) (d : dict) : bool :=
  match dict_get k d with
  | Some _ => true
  | None => false
  end.

(** [d[k] = v] *)
Fixpoint dict_set (k : string) (v : V) (d : dict) : dict :=
  match d with
  | [] => [(k, v)]
  | (k', v') :: rest =>
      if String.eqb k k' then (k, v) :: rest
      else (k', v') :: dict_set k v rest
  end.

(** [d.keys()], [d.values()] and [d.get(k, default)] *)
Definition dict_keys (d : dict) : list string := map fst d.
Definition dict_values (d : dict) : list V := map snd d.
Definition dict_get_default (k : string) (default : V) (d : dict) : V :=
  match dict_get k d with
  | Some v => v
  | None => default
  end.

End Dict.

(** ** [pathlib.Path], POSIX flavour

    A path is its root (empty, one slash or two slashes) and its
    components; empty components and single-dot components are dropped
    when the path is built. *)

Module PyPath.

Record t : Type := MkPath { root : string; parts : list string }.

Definition slash : ascii := "/"%char.

Fixpoint leading_slashes (s : string) : nat :=
  match s with
  | String c rest => if Ascii.eqb c slash then S (leading_slashes rest) else 0
  | EmptyString => 0
  end.

Definition root_of (s : string) : string :=
  match leading_slashes s with
  | 0 => ""
  | 2 => "//"
  | _ => "/"
  end.

Definition kept (part : string) : bool :=
  negb (String.eqb part "" || String.eqb part ".").

(** [Path(s)] *)
Definition Path (s : string) : t :=
  MkPath (root_of s) (filter kept (PyStr.split_on slash s)).

(** [str(p)] *)
Definition str (p : t) : string :=
  match root p, parts p with
  | EmptyString, [] => "."
  | r, ps => r ^^ PyStr.join "/" ps
  end.

(** [p.name] *)
Definition name (p : t) : string := last (parts p) "".

(** Index of the last dot of a name, when it splits the name into a
    stem and a suffix: [0 < i < len(name) - 1]. *)
Fixpoint rfind_dot (s : string) (i : nat) : option nat :=
  match s with
  | EmptyString => None
  | String c rest =>
      match rfind_dot rest (S i) with
      | Some j => Some j
      | None => if Ascii.eqb c "."%char then Some i else None
      end
  end.

Definition suffix_index (nm : string) : option nat :=
  match rfind_dot nm 0 with
  | Some i => if (0 <? i) && (i <? String.length nm - 1) then Some i else None
  | None => None
  end.

(** [p.suffix] *)
Definition suffix (p : t) : string :=
  match suffix_index (name p) with
  | Some i => PyStr.drop i (name p)
  | None => ""
  end.

(** [p.stem] *)
Definition stem (p : t) : string :=
  match suffix_index (name p) with
  | Some i => substring 0 i (name p)
  | None => name p
  end.

(** [p.parent] *)
Definition parent (p : t) : t := MkPath (root p) (removelast (parts p)).

(** [p / other]: an absolute [other] replaces [p]. *)
Definition joinpath (p : t) (other : string) : t :=
  let q := Path other in
  match root q with
  | EmptyString => MkPath (root p) (parts p ++ parts q)
  | _ => q
  end.

End PyPath.

(** ** Data model *)

Inductive NodeType : Type :=
| CLASS | METHOD | PROPERTY | FIELD | STORED_PROCEDURE | TABLE | ASPX_PAGE
| ASPX_CONTROL | NAMESPACE | INTERFACE | ENUM | CONSTANT | EVENT | DELEGATE.

Definition NodeType_value (t : NodeType) : string :=
  match t with
  | CLASS => "class" | METHOD => "method" | PROPERTY => "property"
  | FIELD => "field" | STORED_PROCEDURE => "stored_procedure"
  | TABLE => "table" | ASPX_PAGE => "aspx_page"
  | ASPX_CONTROL => "aspx_control" | NAMESPACE => "namespace"
  | INTERFACE => "interface" | ENUM => "enum" | CONSTANT => "constant"
  | EVENT => "event" | DELEGATE => "delegate"
  end.

Definition NodeType_eqb (a b : NodeType) : bool :=
  String.eqb (NodeType_value a) (NodeType_value b).

Inductive RelationshipType : Type :=
| INHERITANCE | IMPLEMENTS | METHOD_CALL | DATABASE_ACCESS | PROPERTY_ACCESS
| CODEBEHIND | CONTAINS | REFERENCES | USES | DEPENDS_ON | FOREIGN_KEY
| COMPOSITION | AGGREGATION.

Definition RelationshipType_value (t : RelationshipType) : string :=
  match t with
  | INHERITANCE => "inheritance" | IMPLEMENTS => "implements"
  | METHOD_CALL => "method_call" | DATABASE_ACCESS => "database_access"
  | PROPERTY_ACCESS => "property_access" | CODEBEHIND => "codebehind"
  | CONTAINS => "contains" | REFERENCES => "references" | USES => "uses"
  | DEPENDS_ON => "depends_on" | FOREIGN_KEY => "foreign_key"
  | COMPOSITION => "composition" | AGGREGATION => "aggregation"
  end.

Definition RelationshipType_eqb (a b : RelationshipType) : bool :=
  String.eqb (RelationshipType_value a) (RelationshipType_value b).

Set Warnings "-register-all".

(** The values that end up in [metadata], [template_data] and the
    dictionaries of [to_dict]. *)
Inductive json : Type :=
| JNull
| JBool (b : bool)
| JInt (n : nat)
| JFloat (q : Q)
| JStr (s : string)
| JList (items : list json)
| JDict (fields : list (string * json)).

Definition json_of_option (o : option string) : json :=
  match o with
  | Some s => JStr s
  | None => JNull
  end.

Module CodeNode.
Record t : Type := Make {
  id : string;
  name : string;
  node_type : NodeType;
  file_path : string;
  line_number : nat;
  metadata : dict json
}.

Definition to_dict (n : t) : dict json :=
  [("id", JStr (id n)); ("name", JStr (name n));
   ("type", JStr (NodeType_value (node_type n)));
   ("file_path", JStr (file_path n)); ("line_number", JInt (line_number n));
   ("metadata", JDict (metadata n))].
End CodeNode.

Module CodeRelationship.
Record t : Type := Make {
  source_id : string;
  target_id : string;
  relationship_type : RelationshipType;
  metadata : dict json;
  confidence : Q
}.

(** The constructor call of the source: [confidence] is left at its
    default [1.0] everywhere. *)
Definition new (src tgt : string) (ty : RelationshipType) (md : dict json) : t :=
  Make src tgt ty md 1%Q.

Definition to_dict (r : t) : dict json :=
  [("source_id", JStr (source_id r)); ("target_id", JStr (target_id r));
   ("relationship_type", JStr (RelationshipType_value (relationship_type r)));
   ("metadata", JDict (metadata r)); ("confidence", JFloat (confidence r))].
End CodeRelationship.

Module CodePattern.
Record t : Type := Make {
  pattern_id : string;
  pattern_type : string;
  files : list string;
  nodes : list CodeNode.t;
  relationships : list CodeRelationship.t;
  template_data : dict json;
  similarity_score : Q
}.

Definition to_dict (p : t) : dict json :=
  [("pattern_id", JStr (pattern_id p)); ("pattern_type", JStr (pattern_type p));
   ("files", JList (map JStr (files p)));
   ("nodes", JList (map (fun n => JDict (CodeNode.to_dict n)) (nodes p)));
   ("relationships",
    JList (map (fun r => JDict (CodeRelationship.to_dict r)) (relationships p)));
   ("template_data", JDict (template_data p));
   ("similarity_score", JFloat (similarity_score p))].
End CodePattern.

(** ** Element extractors *)

Module Extract.

Import Re.

Definition dquote : ascii := ascii_of_nat 34.
Definition squote : ascii := ascii_of_nat 39.
Definition dq : string := String dquote EmptyString.

Definition alnum_ : list cls_item :=
  [CRange "a" "z"; CRange "A" "Z"; CRange "0" "9"; CChar "_"].

(** [(?:public|private|protected|internal)?] *)
Definition access_opt : regex :=
  ROpt (alt (RLit "public") [RLit "private"; RLit "protected"; RLit "internal"]).

(** [(?:kw\s+)?] *)
Definition kw_opt (kw : string) : regex := ROpt (RSeq (RLit kw) (RPlus RSpace)).

(** [namespace\s+([a-zA-Z0-9_.]+)] *)
Definition namespace_re : regex :=
  cat [RLit "namespace"; RPlus RSpace;
       RGroup 1 (RPlus (RSet false (alnum_ ++ [CChar "."])))].

(** [(?:public|private|protected|internal)?\s*(?:partial\s+)?(?:static\s+)?class\s+([a-zA-Z0-9_]+)] *)
Definition class_re : regex :=
  cat [access_opt; RStar RSpace; kw_opt "partial"; kw_opt "static";
       RLit "class"; RPlus RSpace; RGroup 1 (RPlus (RSet false alnum_))].

(** [(?:public|private|protected|internal)?\s*(?:static\s+)?(?:async\s+)?(?:override\s+)?(?:virtual\s+)?[a-zA-Z0-9_<>\[\]]+\s+([a-zA-Z0-9_]+)\s*\(] *)
Definition method_re : regex :=
  cat [access_opt; RStar RSpace; kw_opt "static"; kw_opt "async";
       kw_opt "override"; kw_opt "virtual";
       RPlus (RSet false (alnum_ ++ [CChar "<"; CChar ">"; CChar "["; CChar "]"]));
       RPlus RSpace; RGroup 1 (RPlus (RSet false alnum_)); RStar RSpace;
       RLit "("].

(** [[Q']([a-zA-Z0-9_]+)[Q']], writing Q for the double quote *)
Definition quoted_ident_re : regex :=
  cat [RSet false [CChar dquote; CChar squote];
       RGroup 1 (RPlus (RSet false alnum_));
       RSet false [CChar dquote; CChar squote]].

(** [CodeBehind=Q([^Q]+)Q] *)
Definition codebehind_re : regex :=
  cat [RLit "CodeBehind="; RLit dq; RGroup 1 (RPlus (RSet true [CChar dquote]));
       RLit dq].

(** [<asp:([a-zA-Z]+)\s+[^>]*ID=Q([^Q]+)Q], and the same with [id] *)
Definition control_re (attr : string) : regex :=
  cat [RLit "<asp:"; RGroup 1 (RPlus (RSet false [CRange "a" "z"; CRange "A" "Z"]));
       RPlus RSpace; RStar (RSet true [CChar ">"]); RLit attr; RLit "=";
       RLit dq; RGroup 2 (RPlus (RSet true [CChar dquote])); RLit dq].

Definition control_patterns : list regex := [control_re "ID"; control_re "id"].

Definition sql_ident : regex :=
  RGroup 1 (RPlus (RSet false (alnum_ ++ [CChar "["; CChar "]"]))).

(** [CREATE\s+PROCEDURE\s+([a-zA-Z0-9_\[\]]+)] *)
Definition create_procedure_re : regex :=
  cat [RLit "CREATE"; RPlus RSpace; RLit "PROCEDURE"; RPlus RSpace; sql_ident].

(** [FROM\s+(..)], [JOIN\s+(..)], [UPDATE\s+(..)], [INSERT\s+INTO\s+(..)] *)
Definition table_patterns : list regex :=
  [cat [RLit "FROM"; RPlus RSpace; sql_ident];
   cat [RLit "JOIN"; RPlus RSpace; sql_ident];
   cat [RLit "UPDATE"; RPlus RSpace; sql_ident];
   cat [RLit "INSERT"; RPlus RSpace; RLit "INTO"; RPlus RSpace; sql_ident]].

(** [enumerate(lines, 1)] *)
Definition enumerate1 (A : Type) (l : list A) : list (nat * A) :=
  combine (List.seq 1 (List.length l)) l.

(** Truth value of an [Optional[str]] *)
Definition truthy (o : option string) : bool :=
  match o with
  | Some s => negb (String.eqb s "")
  | None => false
  end.

Definition has_id (i : string) (nodes : list CodeNode.t) : bool :=
  existsb (String.eqb i) (map CodeNode.id nodes).

Definition _extract_access_modifier (line : string) : string :=
  let line_lower := PyStr.lower line in
  if PyStr.contains "private" line_lower then "private"
  else if PyStr.contains "protected" line_lower then "protected"
  else if PyStr.contains "internal" line_lower then "internal"
  else if PyStr.contains "public" line_lower then "public"
  else "default".

(** *** Procedural code ([.cs]) *)

(** The local variables of [_analyze_csharp_detailed]. *)
Record cs_scan : Type := MkScan {
  cs_nodes : list CodeNode.t;
  cs_relationships : list CodeRelationship.t;
  current_namespace : option string;
  current_class : option string;
  in_method : bool;
  brace_count : Z
}.

Definition cs_init : cs_scan := MkScan [] [] None None false 0%Z.

Definition data_access_keywords : list string :=
  ["SqlCommand"; "SqlConnection"; "ExecuteNonQuery"; "ExecuteScalar"].

Definition scan_braces (line_stripped : string) (st : cs_scan) : cs_scan :=
  MkScan (cs_nodes st) (cs_relationships st) (current_namespace st)
         (current_class st) (in_method st)
         (brace_count st + Z.of_nat (PyStr.count_char "{" line_stripped)
          - Z.of_nat (PyStr.count_char "}" line_stripped))%Z.

Definition scan_namespace (fp : string) (line_num : nat) (line_stripped : string)
           (st : cs_scan) : cs_scan :=
  match re_match namespace_re line_stripped with
  | None => st
  | Some m =>
      let namespace_name := group_of 1 m in
      let node_id := fp ^^ ":namespace:" ^^ namespace_name in
      MkScan (cs_nodes st ++
                [CodeNode.Make node_id namespace_name NAMESPACE fp line_num
                   [("scope", JStr "namespace")]])
             (cs_relationships st) (Some namespace_name) (current_class st)
             (in_method st) (brace_count st)
  end.

Definition scan_class (fp : string) (line_num : nat) (line_stripped : string)
           (st : cs_scan) : cs_scan :=
  match re_match class_re line_stripped with
  | None => st
  | Some m =>
      let class_name := group_of 1 m in
      let node_id := fp ^^ ":class:" ^^ class_name in
      MkScan (cs_nodes st ++
                [CodeNode.Make node_id class_name CLASS fp line_num
                   [("namespace", json_of_option (current_namespace st));
                    ("access_modifier",
                     JStr (_extract_access_modifier line_stripped))]])
             (cs_relationships st ++
                match current_namespace st with
                | Some ns =>
                    if truthy (current_namespace st) then
                      [CodeRelationship.new (fp ^^ ":namespace:" ^^ ns) node_id
                         CONTAINS [("scope", JStr "namespace_contains_class")]]
                    else []
                | None => []
                end)
             (current_namespace st) (Some class_name) (in_method st)
             (brace_count st)
  end.

Definition scan_method (fp : string) (line_num : nat) (line_stripped : string)
           (st : cs_scan) : cs_scan :=
  match re_match method_re line_stripped, current_class st with
  | Some m, Some cls =>
      if truthy (current_class st) && negb (PyStr.startswith "//" line_stripped)
      then
        let method_name := group_of 1 m in
        let node_id := fp ^^ ":method:" ^^ cls ^^ ":" ^^ method_name in
        MkScan (cs_nodes st ++
                  [CodeNode.Make node_id method_name METHOD fp line_num
                     [("class", JStr cls);
                      ("access_modifier",
                       JStr (_extract_access_modifier line_stripped));
                      ("is_static", JBool (PyStr.contains "static" line_stripped));
                      ("is_async", JBool (PyStr.contains "async" line_stripped))]])
               (cs_relationships st ++
                  (if truthy (current_class st) then
                     [CodeRelationship.new (fp ^^ ":class:" ^^ cls) node_id
                        CONTAINS [("scope", JStr "class_contains_method")]]
                   else []))
               (current_namespace st) (current_class st) (in_method st)
               (brace_count st)
      else st
  | _, _ => st
  end.

Definition is_proc_name (s : string) : bool :=
  PyStr.startswith "sp_" s || PyStr.startswith "usp_" s.

Definition scan_database_access (fp : string) (line_num : nat)
           (line_stripped : string) (st : cs_scan) : cs_scan :=
  if existsb (fun keyword => PyStr.contains keyword line_stripped)
             data_access_keywords
  then
    match re_search quoted_ident_re line_stripped with
    | Some m =>
        if is_proc_name (group_of 1 m) then
          let proc_name := group_of 1 m in
          let proc_node_id := "database:procedure:" ^^ proc_name in
          MkScan (cs_nodes st ++
                    (if negb (has_id proc_node_id (cs_nodes st)) then
                       [CodeNode.Make proc_node_id proc_name STORED_PROCEDURE
                          "database" 0 [("database_object", JBool true)]]
                     else []))
                 (cs_relationships st ++
                    match current_class st with
                    | Some cls =>
                        if in_method st && truthy (current_class st) then
                          [CodeRelationship.new (fp ^^ ":method:" ^^ cls ^^ ":*")
                             proc_node_id DATABASE_ACCESS
                             [("line_number", JInt line_num)]]
                        else []
                    | None => []
                    end)
                 (current_namespace st) (current_class st) (in_method st)
                 (brace_count st)
        else st
    | None => st
    end
  else st.

(** One iteration of the loop over the lines. *)
Definition cs_line (fp : string) (st : cs_scan) (numbered : nat * string) : cs_scan :=
  let (line_num, line) := numbered in
  let line_stripped := PyStr.strip line in
  scan_database_access fp line_num line_stripped
    (scan_method fp line_num line_stripped
       (scan_class fp line_num line_stripped
          (scan_namespace fp line_num line_stripped
             (scan_braces line_stripped st)))).

Definition cs_scan_lines (fp : string) (lines : list string) : cs_scan :=
  fold_left (cs_line fp) (enumerate1 lines) cs_init.

Definition _analyze_csharp_detailed (file_path : PyPath.t) (content : string)
  : list CodeNode.t * list CodeRelationship.t :=
  let st := cs_scan_lines (PyPath.str file_path)
                          (PyStr.split_on PyStr.newline content) in
  (cs_nodes st, cs_relationships st).

(** *** Markup ([.aspx]) *)

Definition control_match (fp page_node_id : string) (line_num : nat)
           (acc : list CodeNode.t * list CodeRelationship.t) (m : match_result)
  : list CodeNode.t * list CodeRelationship.t :=
  let control_type := group_of 1 m in
  let control_id := group_of 2 m in
  let control_node_id := fp ^^ ":control:" ^^ control_id in
  (fst acc ++
     [CodeNode.Make control_node_id control_id ASPX_CONTROL fp line_num
        [("control_type", JStr control_type)]],
   snd acc ++
     [CodeRelationship.new page_node_id control_node_id CONTAINS
        [("scope", JStr "page_contains_control")]]).

Definition aspx_line (fp page_node_id : string)
           (acc : list CodeNode.t * list CodeRelationship.t)
           (numbered : nat * string)
  : list CodeNode.t * list CodeRelationship.t :=
  let (line_num, line) := numbered in
  fold_left
    (fun acc pattern =>
       fold_left (control_match fp page_node_id line_num) (finditer pattern line) acc)
    control_patterns acc.

Definition _analyze_aspx_detailed (file_path : PyPath.t) (content : string)
  : list CodeNode.t * list CodeRelationship.t :=
  let fp := PyPath.str file_path in
  let page_name := PyPath.stem file_path in
  let page_node_id := fp ^^ ":page:" ^^ page_name in
  let nodes :=
    [CodeNode.Make page_node_id page_name ASPX_PAGE fp 1
       [("page_type", JStr "aspx")]] in
  let relationships :=
    match re_search codebehind_re content with
    | Some m =>
        let codebehind_file := group_of 1 m in
        let codebehind_path :=
          PyPath.joinpath (PyPath.parent file_path) codebehind_file in
        [CodeRelationship.new page_node_id
           (PyPath.str codebehind_path ^^ ":class:*") CODEBEHIND
           [("codebehind_file", JStr (PyPath.str codebehind_path))]]
    | None => []
    end in
  fold_left (aspx_line fp page_node_id)
            (enumerate1 (PyStr.split_on PyStr.newline content))
            (nodes, relationships).

(** *** Schema definitions ([.sql]) *)

Definition sql_procedure (fp : string) (line_num : nat) (line_upper : string)
           (nodes : list CodeNode.t) : list CodeNode.t :=
  if PyStr.startswith "CREATE PROCEDURE" line_upper then
    match re_search create_procedure_re line_upper with
    | Some m =>
        let proc_name := PyStr.strip_chars "[]" (group_of 1 m) in
        let node_id := "database:procedure:" ^^ proc_name in
        nodes ++ [CodeNode.Make node_id proc_name STORED_PROCEDURE fp line_num
                    [("database_object", JBool true)]]
    | None => nodes
    end
  else nodes.

Definition sql_table (nodes : list CodeNode.t) (m : match_result) : list CodeNode.t :=
  let table_name := PyStr.strip_chars "[]" (group_of 1 m) in
  let table_node_id := "database:table:" ^^ table_name in
  if negb (has_id table_node_id nodes) then
    nodes ++ [CodeNode.Make table_node_id table_name TABLE "database" 0
                [("database_object", JBool true)]]
  else nodes.

Definition sql_line (fp : string) (nodes : list CodeNode.t)
           (numbered : nat * string) : list CodeNode.t :=
  let (line_num, line) := numbered in
  let line_upper := PyStr.strip (PyStr.upper line) in
  fold_left
    (fun nodes pattern => fold_left sql_table (finditer pattern line_upper) nodes)
    table_patterns (sql_procedure fp line_num line_upper nodes).

Definition _analyze_sql_detailed (file_path : PyPath.t) (content : string)
  : list CodeNode.t * list CodeRelationship.t :=
  (fold_left (sql_line (PyPath.str file_path))
             (enumerate1 (PyStr.split_on PyStr.newline content)) [],
   []).

End Extract.

(** ** Source scanner *)

(** What [open(path, 'r', encoding='utf-8')] followed by [read()] does on
    a path that exists: the decoded text, a [UnicodeDecodeError], or any
    other exception (a directory, no permission) with its message. *)
Inductive read_result : Type :=
| Content (text : string)
| UnicodeDecodeError
| OtherError (message : string).

(** The files, by the string form of their path; [None] for a path that
    does not exist. *)
Definition file_system : Type := string -> option read_result.

Inductive outcome (A : Type) : Type :=
| Returned (a : A)
| Raised (message : string).
Arguments Returned {A} a.
Arguments Raised {A} message.

Definition exists_ (fs : file_system) (p : PyPath.t) : bool :=
  match fs (PyPath.str p) with
  | Some _ => true
  | None => false
  end.

Definition dispatch_by_suffix (file_path : PyPath.t) (content : string)
  : list CodeNode.t * list CodeRelationship.t :=
  if String.eqb (PyPath.suffix file_path) ".cs" then
    Extract._analyze_csharp_detailed file_path content
  else if String.eqb (PyPath.suffix file_path) ".aspx" then
    Extract._analyze_aspx_detailed file_path content
  else if String.eqb (PyPath.suffix file_path) ".sql" then
    Extract._analyze_sql_detailed file_path content
  else ([], []).

Definition _analyze_file_detailed (fs : file_system) (file_path : PyPath.t)
  : outcome (list CodeNode.t * list CodeRelationship.t) :=
  match fs (PyPath.str file_path) with
  | Some (Content content) => Returned (dispatch_by_suffix file_path content)
  | Some UnicodeDecodeError => Returned ([], [])
  | Some (OtherError message) => Raised message
  | None => Raised "No such file or directory"
  end.

(** ** Graph store *)

(** The fields of [EnhancedCodeGraphServer] the operations read. *)
Record server : Type := MkServer {
  nodes : dict CodeNode.t;
  relationships : list CodeRelationship.t;
  patterns : list CodePattern.t
}.

(** [__init__] *)
Definition new_server : server := MkServer [] [] [].

Record analysis_results : Type := MkResults {
  files_analyzed : nat;
  nodes_created : nat;
  relationships_found : nat;
  patterns_identified : nat;
  errors : list string
}.

Definition empty_results : analysis_results := MkResults 0 0 0 0 [].

Definition add_error (msg : string) (r : analysis_results) : analysis_results :=
  MkResults (files_analyzed r) (nodes_created r) (relationships_found r)
            (patterns_identified r) (errors r ++ [msg]).

(** [self.nodes[node.id] = node; analysis_results["nodes_created"] += 1] *)
Definition add_node (acc : server * analysis_results) (node : CodeNode.t)
  : server * analysis_results :=
  let (self, r) := acc in
  (MkServer (dict_set (CodeNode.id node) node (nodes self)) (relationships self)
            (patterns self),
   MkResults (files_analyzed r) (S (nodes_created r)) (relationships_found r)
             (patterns_identified r) (errors r)).

(** [self.relationships.append(rel); analysis_results["relationships_found"] += 1] *)
Definition add_relationship (acc : server * analysis_results)
           (rel : CodeRelationship.t) : server * analysis_results :=
  let (self, r) := acc in
  (MkServer (nodes self) (relationships self ++ [rel]) (patterns self),
   MkResults (files_analyzed r) (nodes_created r) (S (relationships_found r))
             (patterns_identified r) (errors r)).

Definition count_file (acc : server * analysis_results) : server * analysis_results :=
  let (self, r) := acc in
  (self,
   MkResults (S (files_analyzed r)) (nodes_created r) (relationships_found r)
             (patterns_identified r) (errors r)).

(** The body of the loop over [file_paths]. *)
Definition analyze_path (fs : file_system) (acc : server * analysis_results)
           (file_path : string) : server * analysis_results :=
  let path_obj := PyPath.Path file_path in
  if negb (exists_ fs path_obj) then
    (fst acc, add_error ("File not found: " ^^ file_path) (snd acc))
  else
    match _analyze_file_detailed fs path_obj with
    | Returned (new_nodes, new_relationships) =>
        count_file
          (fold_left add_relationship new_relationships
                     (fold_left add_node new_nodes acc))
    | Raised e =>
        (fst acc,
         add_error ("Error analyzing " ^^ file_path ^^ ": " ^^ e) (snd acc))
    end.

(** ** Pattern recognizer *)

(** [list(set(xs))]: the distinct elements.  Python leaves the order of a
    set unspecified; here it is the order of first occurrence. *)
Fixpoint distinct (xs : list string) : list string :=
  match xs with
  | [] => []
  | x :: rest => x :: filter (fun y => negb (String.eqb x y)) (distinct rest)
  end.

(** [rel.source_id == node.id or rel.target_id == node.id] *)
Definition touches (rel : CodeRelationship.t) (node_id : string) : bool :=
  String.eqb (CodeRelationship.source_id rel) node_id
  || String.eqb (CodeRelationship.target_id rel) node_id.

(** The grouping loop of [_find_crud_patterns]. *)
Definition group_by_entity (entity_groups : dict (list CodeNode.t))
           (node : CodeNode.t) : dict (list CodeNode.t) :=
  if NodeType_eqb (CodeNode.node_type node) CLASS then
    if PyStr.endswith "Manager" (CodeNode.name node) then
      let entity_name := PyStr.drop_last 7 (CodeNode.name node) in
      let entity_groups :=
        if negb (dict_mem entity_name entity_groups)
        then dict_set entity_name [] entity_groups
        else entity_groups in
      dict_set entity_name
               (dict_get_default entity_name [] entity_groups ++ [node])
               entity_groups
    else entity_groups
  else entity_groups.

Definition entity_groups_of (self : server) : dict (list CodeNode.t) :=
  fold_left group_by_entity (dict_values (nodes self)) [].

Definition crud_pattern (self : server) (entity_name : string)
           (group : list CodeNode.t) : CodePattern.t :=
  CodePattern.Make
    ("crud_" ^^ PyStr.lower entity_name)
    "database_crud"
    (distinct (map CodeNode.file_path group))
    group
    (filter (fun rel => existsb (fun node => touches rel (CodeNode.id node)) group)
            (relationships self))
    [("entity_name", JStr entity_name);
     ("table_name", JStr (entity_name ^^ "s"));
     ("primary_key", JStr (entity_name ^^ "ID"));
     ("manager_class", JStr (entity_name ^^ "Manager"))]
    (8 # 10)%Q.

Definition _find_crud_patterns (self : server) : list CodePattern.t :=
  fold_left
    (fun (found : list CodePattern.t) (item : string * list CodeNode.t) =>
       let (entity_name, group) := item in
       if 0 <? List.length group
       then found ++ [crud_pattern self entity_name group]
       else found)
    (entity_groups_of self) [].

(** The inner loop of [_find_page_patterns] over [self.relationships]. *)
Definition relate (self : server) (page_node : CodeNode.t)
           (acc : list CodeNode.t * list CodeRelationship.t)
           (rel : CodeRelationship.t)
  : list CodeNode.t * list CodeRelationship.t :=
  if touches rel (CodeNode.id page_node) then
    let other_node_id :=
      if String.eqb (CodeRelationship.source_id rel) (CodeNode.id page_node)
      then CodeRelationship.target_id rel
      else CodeRelationship.source_id rel in
    (match dict_get other_node_id (nodes self) with
     | Some other => fst acc ++ [other]
     | None => fst acc
     end,
     snd acc ++ [rel])
  else acc.

Definition related (self : server) (page_node : CodeNode.t)
  : list CodeNode.t * list CodeRelationship.t :=
  fold_left (relate self page_node) (relationships self) ([page_node], []).

Definition is_control (n : CodeNode.t) : bool :=
  NodeType_eqb (CodeNode.node_type n) ASPX_CONTROL.

(** The body of the loop over [aspx_pages]: the pattern of one page, if
    it gets one. *)
Definition page_pattern (self : server) (page_node : CodeNode.t)
  : option CodePattern.t :=
  let (related_nodes, related_relationships) := related self page_node in
  if 1 <? List.length related_nodes then
    Some (CodePattern.Make
            ("page_" ^^ PyStr.lower (CodeNode.name page_node))
            "aspx_page"
            (distinct (map CodeNode.file_path related_nodes))
            related_nodes
            related_relationships
            [("page_name", JStr (CodeNode.name page_node));
             ("control_count",
              JInt (List.length (filter is_control related_nodes)))]
            (7 # 10)%Q)
  else None.

Definition aspx_pages (self : server) : list CodeNode.t :=
  filter (fun node => NodeType_eqb (CodeNode.node_type node) ASPX_PAGE)
         (dict_values (nodes self)).

Definition _find_page_patterns (self : server) : list CodePattern.t :=
  fold_left
    (fun found page_node =>
       match page_pattern self page_node with
       | Some pattern => found ++ [pattern]
       | None => found
       end)
    (aspx_pages self) [].

Definition _identify_patterns (self : server) : list CodePattern.t :=
  _find_crud_patterns self ++ _find_page_patterns self.

(** ** [analyze_specific_files]

    The loop, then [_identify_patterns] for the count it reports.  The
    list it computes stays local: [self.patterns] is not assigned. *)
Definition scan (fs : file_system) (file_paths : list string)
           (acc : server * analysis_results) : server * analysis_results :=
  fold_left (analyze_path fs) file_paths acc.

Definition analyze_specific_files (fs : file_system) (self : server)
           (file_paths : list string) : server * analysis_results :=
  let (self', r) := scan fs file_paths (self, empty_results) in
  let found := _identify_patterns self' in
  (self',
   MkResults (files_analyzed r) (nodes_created r) (relationships_found r)
             (List.length found) (errors r)).

(** ** Query and export facade *)

(** [type_counts[t] = type_counts.get(t, 0) + 1] *)
Definition bump (type_counts : dict nat) (t : string) : dict nat :=
  dict_set t (dict_get_default t 0 type_counts + 1) type_counts.

Definition get_node_types_summary (self : server) : dict nat :=
  fold_left (fun type_counts node =>
               bump type_counts (NodeType_value (CodeNode.node_type node)))
            (dict_values (nodes self)) [].

Definition get_relationship_types_summary (self : server) : dict nat :=
  fold_left (fun type_counts rel =>
               bump type_counts
                    (RelationshipType_value (CodeRelationship.relationship_type rel)))
            (relationships self) [].

Definition json_counts (d : dict nat) : json :=
  JDict (map (fun kv => (fst kv, JInt (snd kv))) d).

(** The document [export_graph_data] builds, writes out as JSON and
    returns. *)
Definition export_graph_data (self : server) : dict json :=
  [("nodes",
    JList (map (fun node => JDict (CodeNode.to_dict node)) (dict_values (nodes self))));
   ("relationships",
    JList (map (fun rel => JDict (CodeRelationship.to_dict rel)) (relationships self)));
   ("patterns",
    JList (map (fun pattern => JDict (CodePattern.to_dict pattern)) (patterns self)));
   ("summary",
    JDict [("node_types", json_counts (get_node_types_summary self));
           ("relationship_types", json_counts (get_relationship_types_summary self))])].

(** The [find_patterns_by_type] branch of [handle_call_tool], before the
    result is serialized. *)
Definition find_patterns_by_type (self : server) (pattern_type : string)
  : list CodePattern.t :=
  filter (fun p => String.eqb (CodePattern.pattern_type p) pattern_type)
         (patterns self).

(** ** Tool interface

    [handle_list_tools] and [handle_call_tool] of [setup_tools].  The
    [arguments] dictionary is read through the input schemas of the
    tools: a key is absent or holds a value of the type its schema
    declares.  A result is the value handed to [json.dumps]; an
    exception is its message.  The file that [export_graph_data] writes
    is not part of the model, and the write is taken to succeed. *)

Module Tools.

Record property : Type := MkProperty {
  property_name : string;
  property_type : string;
  property_description : string
}.

Record Tool : Type := MkTool {
  name : string;
  description : string;
  properties : list property;
  required : list string
}.

Definition handle_list_tools : list Tool :=
  [MkTool "analyze_specific_files"
          "Analyze specific files and build detailed code graph with typed nodes"
          [MkProperty "file_paths" "array" "List of file paths to analyze"]
          ["file_paths"];
   MkTool "get_node_types_summary" "Get summary of node types in the code graph" [] [];
   MkTool "get_relationship_types_summary"
          "Get summary of relationship types in the code graph" [] [];
   MkTool "export_graph_data" "Export graph data for visualization"
          [MkProperty "output_path" "string" "Path to save the graph data"] [];
   MkTool "find_patterns_by_type" "Find code patterns by type"
          [MkProperty "pattern_type" "string"
                      "Type of pattern to find (database_crud, aspx_page, etc.)"]
          ["pattern_type"]].

(** The keys the tools read, each absent or present with its value. *)
Record arguments : Type := MkArguments {
  file_paths : option (list string);
  output_path : option string;
  pattern_type : option string
}.

(** [key in arguments] *)
Definition has_key (key : string) (args : arguments) : bool :=
  if String.eqb key "file_paths" then
    match file_paths args with Some _ => true | None => false end
  else if String.eqb key "output_path" then
    match output_path args with Some _ => true | None => false end
  else if String.eqb key "pattern_type" then
    match pattern_type args with Some _ => true | None => false end
  else false.

(** [str(KeyError(key))] *)
Definition key_error (key : string) : string :=
  String Extract.squote key ^^ String Extract.squote EmptyString.

(** The dictionary [analyze_specific_files] returns. *)
Definition results_dict (r : analysis_results) : json :=
  JDict [("files_analyzed", JInt (files_analyzed r));
         ("nodes_created", JInt (nodes_created r));
         ("relationships_found", JInt (relationships_found r));
         ("patterns_identified", JInt (patterns_identified r));
         ("errors", JList (map JStr (errors r)))].

Definition handle_call_tool (fs : file_system) (self : server) (tool_name : string)
           (args : arguments) : server * outcome json :=
  if String.eqb tool_name "analyze_specific_files" then
    match file_paths args with
    | Some paths =>
        let (self', results) := analyze_specific_files fs self paths in
        (self', Returned (results_dict results))
    | None => (self, Raised (key_error "file_paths"))
    end
  else if String.eqb tool_name "get_node_types_summary" then
    (self, Returned (json_counts (get_node_types_summary self)))
  else if String.eqb tool_name "get_relationship_types_summary" then
    (self, Returned (json_counts (get_relationship_types_summary self)))
  else if String.eqb tool_name "export_graph_data" then
    (self, Returned (JDict (export_graph_data self)))
  else if String.eqb tool_name "find_patterns_by_type" then
    match pattern_type args with
    | Some t =>
        (self,
         Returned (JList (map (fun p => JDict (CodePattern.to_dict p))
                              (find_patterns_by_type self t))))
    | None => (self, Raised (key_error "pattern_type"))
    end
  else (self, Raised ("Unknown tool: " ^^ tool_name)).

(** A client's request, with the file system as it is when the request
    is served. *)
Record call : Type := MkCall {
  call_fs : file_system;
  call_tool : string;
  call_arguments : arguments
}.

(** The server after a sequence of requests. *)
Definition serve (self : server) (calls : list call) : server :=
  fold_left (fun self c =>
               fst (handle_call_tool (call_fs c) self (call_tool c) (call_arguments c)))
            calls self.

End Tools.

(** * Vocabulary of the properties *)

(** ** What one path contributes to a scan *)

(** [self.nodes[node.id] = node], for one node and for a list of them. *)
Definition upsert (store : dict CodeNode.t) (node : CodeNode.t) : dict CodeNode.t :=
  dict_set (CodeNode.id node) node store.

Definition upsert_all (store : dict CodeNode.t) (ns : list CodeNode.t)
  : dict CodeNode.t :=
  fold_left upsert ns store.

(** The nodes and relationships the extractors emit for a list of paths,
    the number of paths counted as analyzed, and the error strings. *)
Record effect : Type := MkEffect {
  emitted_nodes : list CodeNode.t;
  emitted_relationships : list CodeRelationship.t;
  counted : nat;
  reported : list string
}.

Definition no_effect : effect := MkEffect [] [] 0 [].

Definition effect_app (e1 e2 : effect) : effect :=
  MkEffect (emitted_nodes e1 ++ emitted_nodes e2)
           (emitted_relationships e1 ++ emitted_relationships e2)
           (counted e1 + counted e2)
           (reported e1 ++ reported e2).

Definition file_effect (fs : file_system) (file_path : string) : effect :=
  let path_obj := PyPath.Path file_path in
  match fs (PyPath.str path_obj) with
  | None => MkEffect [] [] 0 ["File not found: " ^^ file_path]
  | Some (Content content) =>
      MkEffect (fst (dispatch_by_suffix path_obj content))
               (snd (dispatch_by_suffix path_obj content)) 1 []
  | Some UnicodeDecodeError => MkEffect [] [] 1 []
  | Some (OtherError e) =>
      MkEffect [] [] 0 ["Error analyzing " ^^ file_path ^^ ": " ^^ e]
  end.

Definition scan_effect (fs : file_system) (file_paths : list string) : effect :=
  fold_right (fun p e => effect_app (file_effect fs p) e) no_effect file_paths.

Definition apply_effect (e : effect) (acc : server * analysis_results)
  : server * analysis_results :=
  (MkServer (upsert_all (nodes (fst acc)) (emitted_nodes e))
            (relationships (fst acc) ++ emitted_relationships e)
            (patterns (fst acc)),
   MkResults (files_analyzed (snd acc) + counted e)
             (nodes_created (snd acc) + List.length (emitted_nodes e))
             (relationships_found (snd acc) + List.length (emitted_relationships e))
             (patterns_identified (snd acc))
             (errors (snd acc) ++ reported e)).

(** ** Sample sources *)

Definition text_of_lines (ls : list string) : string :=
  PyStr.join (String PyStr.newline EmptyString) ls.

Definition quoted (s : string) : string := Extract.dq ^^ s ^^ Extract.dq.

(** The scenario file of the specification, one declaration per line. *)
Definition customer_manager_cs : string :=
  text_of_lines
    ["namespace App.BusinessLogic {";
     "    class CustomerManager {";
     "        public List<Customer> GetCustomers() {...}";
     "    }";
     "}"].

(** The same text on a single line. *)
Definition customer_manager_one_line_cs : string :=
  "namespace App.BusinessLogic { class CustomerManager { public List<Customer> GetCustomers() {...} } }".


(** A manager class whose method calls a stored procedure. *)
Definition customer_data_cs : string :=
  text_of_lines
    ["namespace App.BusinessLogic";
     "{";
     "    public class CustomerManager";
     "    {";
     "        public DataTable GetCustomers()";
     "        {";
     "            SqlCommand cmd = new SqlCommand(" ^^ quoted "sp_GetCustomers"
       ^^ ", conn);";
     "            cmd.ExecuteNonQuery();";
     "        }";
     "    }";
     "}"].

Definition get_customers_sql : string :=
  text_of_lines
    ["CREATE PROCEDURE sp_GetCustomers";
     "AS";
     "BEGIN";
     "    SELECT CustomerID, Name FROM Customers";
     "END"].

Definition default_aspx : string :=
  text_of_lines
    ["<%@ Page Language=" ^^ quoted "C#" ^^ " CodeBehind="
       ^^ quoted "Default.aspx.cs" ^^ " %>";
     "<asp:Button ID=" ^^ quoted "btnSave" ^^ " runat=" ^^ quoted "server" ^^ " />"].

(** A page whose code-behind attribute, joined to its directory and
    completed with the wildcard, spells the page's own node id. *)
Definition loop_aspx_path : string := "x:class:*.aspx".
Definition loop_aspx : string :=
  "<%@ Page CodeBehind=" ^^ quoted "x:class:*.aspx:page:x" ^^ " %>".

Definition sample_fs : file_system :=
  fun p =>
    if String.eqb p "CustomerManager.cs" then Some (Content customer_manager_cs)
    else if String.eqb p "CustomerData.cs" then Some (Content customer_data_cs)
    else if String.eqb p "GetCustomers.sql" then Some (Content get_customers_sql)
    else if String.eqb p "Default.aspx" then Some (Content default_aspx)
    else if String.eqb p loop_aspx_path then Some (Content loop_aspx)
    else if String.eqb p "Legacy.cs" then Some UnicodeDecodeError
    else if String.eqb p "Locked.cs" then Some (OtherError "Permission denied")
    else None.

(** ** Views of an extraction result *)

Definition node_view (n : CodeNode.t) : NodeType * string * string :=
  (CodeNode.node_type n, CodeNode.name n, CodeNode.id n).

Definition edge_view (r : CodeRelationship.t) : RelationshipType * string * string :=
  (CodeRelationship.relationship_type r, CodeRelationship.source_id r,
   CodeRelationship.target_id r).

Definition is_database_access (r : CodeRelationship.t) : bool :=
  RelationshipType_eqb (CodeRelationship.relationship_type r) DATABASE_ACCESS.

(** What holds of the procedural scan after every line. *)
Definition cs_invariant (st : Extract.cs_scan) : Prop :=
  Extract.in_method st = false
  /\ Forall (fun r => CodeRelationship.relationship_type r = CONTAINS)
            (Extract.cs_relationships st).

(** ** Reading an export document *)

(** [doc[key]], a list of entries. *)
Definition doc_list (key : string) (doc : dict json) : list json :=
  match dict_get key doc with
  | Some (JList entries) => entries
  | _ => []
  end.

(** [entry[field]], a string. *)
Definition entry_field (field : string) (entry : json) : option string :=
  match entry with
  | JDict fields =>
      match dict_get field fields with
      | Some (JStr s) => Some s
      | _ => None
      end
  | _ => None
  end.

Definition has_field (field value : string) (entry : json) : bool :=
  match entry_field field entry with
  | Some s => String.eqb s value
  | None => false
  end.

(** Number of entries whose [field] is [value]. *)
Definition count_entries (field value : string) (entries : list json) : nat :=
  List.length (filter (has_field field value) entries).

(** [doc["summary"][which]], as counts. *)
Definition doc_summary (which : string) (doc : dict json) : dict nat :=
  match dict_get "summary" doc with
  | Some (JDict summary) =>
      match dict_get which summary with
      | Some (JDict counts) =>
          flat_map (fun kv => match snd kv with
                              | JInt n => [(fst kv, n)]
                              | _ => []
                              end) counts
      | _ => []
      end
  | _ => []
  end.

(** The count a summary gives for a type: 0 when the type has no entry. *)
Definition summary_count (t : string) (summary : dict nat) : nat :=
  dict_get_default t 0 summary.

Definition summary_total (summary : dict nat) : nat :=
  list_sum (dict_values summary).

(** ** Pages and what is linked to them *)

(** The id at the other end of a relationship that touches the page. *)
Definition other_end (page_node : CodeNode.t) (rel : CodeRelationship.t) : string :=
  if String.eqb (CodeRelationship.source_id rel) (CodeNode.id page_node)
  then CodeRelationship.target_id rel
  else CodeRelationship.source_id rel.

(** The stored node a relationship links the page to, if any. *)
Definition link (self : server) (page_node : CodeNode.t) (rel : CodeRelationship.t)
  : option CodeNode.t :=
  if touches rel (CodeNode.id page_node)
  then dict_get (other_end page_node rel) (nodes self)
  else None.

Definition list_of_option (A : Type) (o : option A) : list A :=
  match o with
  | Some a => [a]
  | None => []
  end.

Definition links (self : server) (page_node : CodeNode.t) : list CodeNode.t :=
  flat_map (fun rel => list_of_option (link self page_node rel)) (relationships self).

(** The relationship links the page to a stored control. *)
Definition control_link (self : server) (page_node : CodeNode.t)
           (rel : CodeRelationship.t) : bool :=
  match link self page_node rel with
  | Some n => is_control n
  | None => false
  end.

Definition control_count_of (pattern : CodePattern.t) : option json :=
  dict_get "control_count" (CodePattern.template_data pattern).

(** In the words of the specification: a stored node is connected to the
    page when some relationship joins the two, in either direction. *)
Definition connected (self : server) (page_node n : CodeNode.t) : bool :=
  existsb (fun rel =>
             (String.eqb (CodeRelationship.source_id rel) (CodeNode.id page_node)
              && String.eqb (CodeRelationship.target_id rel) (CodeNode.id n))
             || (String.eqb (CodeRelationship.source_id rel) (CodeNode.id n)
                 && String.eqb (CodeRelationship.target_id rel) (CodeNode.id page_node)))
          (relationships self).

(** The nodes other than the page that are connected to it, and the
    controls among them. *)
Definition other_connected_nodes (self : server) (page_node : CodeNode.t)
  : list CodeNode.t :=
  filter (fun n => negb (String.eqb (CodeNode.id n) (CodeNode.id page_node))
                   && connected self page_node n)
         (dict_values (nodes self)).

Definition connected_controls (self : server) (page_node : CodeNode.t)
  : list CodeNode.t :=
  filter is_control (other_connected_nodes self page_node).

(** The page node of [Default.aspx], and the server after that file has
    been analyzed twice. *)
Definition default_page : CodeNode.t :=
  CodeNode.Make "Default.aspx:page:Default" "Default" ASPX_PAGE "Default.aspx" 1
                [("page_type", JStr "aspx")].

Definition analyzed_twice : server :=
  fst (analyze_specific_files sample_fs new_server ["Default.aspx"; "Default.aspx"]).

(** The page node of the file whose code-behind reference loops back, and
    the server after that file has been analyzed. *)
Definition loop_page : CodeNode.t :=
  CodeNode.Make "x:class:*.aspx:page:x:class:*" "x:class:*" ASPX_PAGE
                "x:class:*.aspx" 1 [("page_type", JStr "aspx")].

Definition analyzed_loop : server :=
  fst (analyze_specific_files sample_fs new_server [loop_aspx_path]).

(** ** Manager classes and their entities *)

(** A class node whose name ends with the manager suffix. *)
Definition is_manager (n : CodeNode.t) : bool :=
  NodeType_eqb (CodeNode.node_type n) CLASS
  && PyStr.endswith "Manager" (CodeNode.name n).

(** The name without the suffix. *)
Definition entity_of (n : CodeNode.t) : string := PyStr.drop_last 7 (CodeNode.name n).

(** The manager classes of one entity among some nodes, in their order. *)
Definition members (entity : string) (ns : list CodeNode.t) : list CodeNode.t :=
  filter (fun n => is_manager n && String.eqb (entity_of n) entity) ns.

Definition manager_group (self : server) (entity : string) : list CodeNode.t :=
  members entity (dict_values (nodes self)).

Definition entity_name_of (pattern : CodePattern.t) : string :=
  match dict_get "entity_name" (CodePattern.template_data pattern) with
  | Some (JStr e) => e
  | _ => EmptyString
  end.

(** A store holding the two manager classes of the scenario. *)
Definition class_node (file_path class_name : string) (line : nat) : CodeNode.t :=
  CodeNode.Make (file_path ^^ ":class:" ^^ class_name) class_name CLASS file_path
                line
                [("namespace", JNull); ("access_modifier", JStr "public")].

Definition two_managers : server :=
  MkServer (upsert_all [] [class_node "ProductManager.cs" "ProductManager" 3;
                           class_node "CustomerManager.cs" "CustomerManager" 3])
           [] [].

(** ** Paths by what the scan does with them *)

(** The error string a path adds to [errors], if any. *)
Definition path_error (fs : file_system) (file_path : string) : list string :=
  match fs (PyPath.str (PyPath.Path file_path)) with
  | None => ["File not found: " ^^ file_path]
  | Some (OtherError e) => ["Error analyzing " ^^ file_path ^^ ": " ^^ e]
  | Some _ => []
  end.

(** The path exists and [open]/[read] raise nothing but a decoding error. *)
Definition opens (fs : file_system) (file_path : string) : bool :=
  match fs (PyPath.str (PyPath.Path file_path)) with
  | Some (Content _) | Some UnicodeDecodeError => true
  | _ => false
  end.

(** The suffixes [_analyze_file_detailed] dispatches on. *)
Definition supported_suffix (file_path : string) : bool :=
  let suffix := PyPath.suffix (PyPath.Path file_path) in
  String.eqb suffix ".cs" || String.eqb suffix ".aspx" || String.eqb suffix ".sql".

(** The last node with id [k] among some emitted nodes. *)
Definition last_emitted (k : string) (ns : list CodeNode.t) : option CodeNode.t :=
  find (fun n => String.eqb (CodeNode.id n) k) (rev ns).

(** Every node is stored under its own id, and no id is stored twice. *)
Definition well_keyed (store : dict CodeNode.t) : Prop :=
  NoDup (dict_keys store)
  /\ Forall (fun kv => fst kv = CodeNode.id (snd kv)) store.

(** A file system with a text file the scanner has no extractor for. *)
Definition notes_fs : file_system :=
  fun p =>
    if String.eqb p "notes.txt" then Some (Content "class NotesManager")
    else sample_fs p.

(** ** Shapes of extracted nodes and edges *)

Definition is_type (ty : NodeType) (n : CodeNode.t) : bool :=
  NodeType_eqb (CodeNode.node_type n) ty.

(** Some node of [ns] has type [ty] and id [i]. *)
Definition has_node (ty : NodeType) (i : string) (ns : list CodeNode.t) : bool :=
  existsb (fun n => is_type ty n && String.eqb (CodeNode.id n) i) ns.

Definition is_contains (r : CodeRelationship.t) : bool :=
  RelationshipType_eqb (CodeRelationship.relationship_type r) CONTAINS.

(** A [contains] edge from a namespace node to a class node, or from a
    class node to a method node, both among [ns]. *)
Definition structural_edge (ns : list CodeNode.t) (r : CodeRelationship.t) : bool :=
  is_contains r
  && ((has_node NAMESPACE (CodeRelationship.source_id r) ns
       && has_node CLASS (CodeRelationship.target_id r) ns)
      || (has_node CLASS (CodeRelationship.source_id r) ns
          && has_node METHOD (CodeRelationship.target_id r) ns)).

(** [n.metadata[key]], a string. *)
Definition metadata_string (key : string) (n : CodeNode.t) : option string :=
  match dict_get key (CodeNode.metadata n) with
  | Some (JStr s) => Some s
  | _ => None
  end.

(** Some [contains] edge of [rels] leads to [n] from the node of the
    class that [n] records in its metadata, and that class node is among
    [ns]. *)
Definition contained_by_class (fp : string) (ns : list CodeNode.t)
           (rels : list CodeRelationship.t) (n : CodeNode.t) : bool :=
  match metadata_string "class" n with
  | Some cls =>
      has_node CLASS (fp ^^ ":class:" ^^ cls) ns
      && existsb (fun r => is_contains r
                           && String.eqb (CodeRelationship.target_id r) (CodeNode.id n)
                           && String.eqb (CodeRelationship.source_id r)
                                         (fp ^^ ":class:" ^^ cls))
                 rels
  | None => false
  end.

Definition line_in_file (line_count : nat) (n : CodeNode.t) : bool :=
  (1 <=? CodeNode.line_number n) && (CodeNode.line_number n <=? line_count).

(** The form of a node of the procedural-code extractor: a namespace,
    class or method of the file, on one of its lines, with its id made
    of the path, the kind and the qualified name; or a stored procedure
    of the database sentinel. *)
Definition cs_node_wf (fp : string) (line_count : nat) (n : CodeNode.t) : bool :=
  match CodeNode.node_type n with
  | NAMESPACE =>
      String.eqb (CodeNode.file_path n) fp && line_in_file line_count n
      && String.eqb (CodeNode.id n) (fp ^^ ":namespace:" ^^ CodeNode.name n)
  | CLASS =>
      String.eqb (CodeNode.file_path n) fp && line_in_file line_count n
      && String.eqb (CodeNode.id n) (fp ^^ ":class:" ^^ CodeNode.name n)
  | METHOD =>
      String.eqb (CodeNode.file_path n) fp && line_in_file line_count n
      && match metadata_string "class" n with
         | Some cls =>
             String.eqb (CodeNode.id n)
                        (fp ^^ ":method:" ^^ cls ^^ ":" ^^ CodeNode.name n)
         | None => false
         end
  | STORED_PROCEDURE =>
      String.eqb (CodeNode.file_path n) "database"
      && (CodeNode.line_number n =? 0)
      && String.eqb (CodeNode.id n) ("database:procedure:" ^^ CodeNode.name n)
      && Extract.is_proc_name (CodeNode.name n)
  | _ => false
  end.

(** What the procedural scan keeps true from line to line. *)
Definition cs_structure (fp : string) (line_count : nat) (st : Extract.cs_scan) : Prop :=
  Extract.in_method st = false
  /\ (forall x, Extract.current_namespace st = Some x ->
                has_node NAMESPACE (fp ^^ ":namespace:" ^^ x) (Extract.cs_nodes st) = true)
  /\ (forall c, Extract.current_class st = Some c ->
                has_node CLASS (fp ^^ ":class:" ^^ c) (Extract.cs_nodes st) = true)
  /\ forallb (structural_edge (Extract.cs_nodes st)) (Extract.cs_relationships st) = true
  /\ forallb (fun n => negb (is_type METHOD n)
                       || contained_by_class fp (Extract.cs_nodes st)
                                             (Extract.cs_relationships st) n)
             (Extract.cs_nodes st) = true
  /\ forallb (cs_node_wf fp line_count) (Extract.cs_nodes st) = true
  /\ NoDup (map CodeNode.id (filter (is_type STORED_PROCEDURE) (Extract.cs_nodes st))).

(** The form of a control node of the markup extractor. *)
Definition aspx_control_wf (fp : string) (line_count : nat) (c : CodeNode.t) : bool :=
  is_type ASPX_CONTROL c
  && String.eqb (CodeNode.file_path c) fp
  && line_in_file line_count c
  && String.eqb (CodeNode.id c) (fp ^^ ":control:" ^^ CodeNode.name c).

(** The [contains] edge from a page to one of its controls. *)
Definition page_contains (page_node_id : string) (c : CodeNode.t) : CodeRelationship.t :=
  CodeRelationship.new page_node_id (CodeNode.id c) CONTAINS
                       [("scope", JStr "page_contains_control")].

(** A pair of accumulators grown by some controls and their edges. *)
Definition grown_by_controls (fp page_node_id : string) (line_count : nat)
           (acc acc' : list CodeNode.t * list CodeRelationship.t) : Prop :=
  exists controls,
    acc' = (fst acc ++ controls, snd acc ++ map (page_contains page_node_id) controls)
    /\ forallb (aspx_control_wf fp line_count) controls = true.

Definition is_codebehind_of (page_node_id : string) (r : CodeRelationship.t) : bool :=
  RelationshipType_eqb (CodeRelationship.relationship_type r) CODEBEHIND
  && String.eqb (CodeRelationship.source_id r) page_node_id.

(** The form of a node of the schema-definition extractor. *)
Definition sql_node_wf (fp : string) (line_count : nat) (n : CodeNode.t) : bool :=
  match CodeNode.node_type n with
  | STORED_PROCEDURE =>
      String.eqb (CodeNode.file_path n) fp && line_in_file line_count n
      && String.eqb (CodeNode.id n) ("database:procedure:" ^^ CodeNode.name n)
  | TABLE =>
      String.eqb (CodeNode.file_path n) "database"
      && (CodeNode.line_number n =? 0)
      && String.eqb (CodeNode.id n) ("database:table:" ^^ CodeNode.name n)
  | _ => false
  end.

Definition sql_structure (fp : string) (line_count : nat) (ns : list CodeNode.t) : Prop :=
  forallb (sql_node_wf fp line_count) ns = true
  /\ NoDup (map CodeNode.id (filter (is_type TABLE) ns)).

(** ** Summaries and patterns *)

(** What a page pattern is made of, when the page gets one. *)
Definition pattern_view (p : CodePattern.t)
  : string * string * list CodeNode.t * list CodeRelationship.t :=
  (CodePattern.pattern_id p, CodePattern.pattern_type p, CodePattern.nodes p,
   CodePattern.relationships p).

Definition has_pattern_type (t : string) (p : CodePattern.t) : bool :=
  String.eqb (CodePattern.pattern_type p) t.

(** A summary is well formed over the types [seen]: one entry for each
    type seen, none for any other, and no entry with count 0. *)
Definition summary_wf (seen : list string) (summary : dict nat) : Prop :=
  NoDup (dict_keys summary)
  /\ Forall (fun kv => 1 <= snd kv) summary
  /\ forall t, dict_mem t summary = true <-> In t seen.

(** ** Requests *)

(** The arguments hold every key the tool's schema requires. *)
Definition has_required (tool : Tools.Tool) (args : Tools.arguments) : bool :=
  forallb (fun key => Tools.has_key key args) (Tools.required tool).

Definition is_returned (A : Type) (o : outcome A) : bool :=
  match o with
  | Returned _ => true
  | Raised _ => false
  end.

Definition listed (tool_name : string) : bool :=
  existsb (fun tool => String.eqb (Tools.name tool) tool_name) Tools.handle_list_tools.

(** Some requests: an analysis, two lookups and a call of an unknown
    tool. *)
Definition no_arguments : Tools.arguments := Tools.MkArguments None None None.

Definition sample_calls : list Tools.call :=
  [Tools.MkCall sample_fs "analyze_specific_files"
                (Tools.MkArguments (Some ["CustomerManager.cs"; "Default.aspx"]) None None);
   Tools.MkCall sample_fs "export_graph_data" no_arguments;
   Tools.MkCall sample_fs "find_patterns" no_arguments;
   Tools.MkCall sample_fs "find_patterns_by_type"
                (Tools.MkArguments None None (Some "database_crud"))].

(** ** More sample inputs *)

(** A procedural file that is commented out. *)
Definition commented_cs : string :=
  text_of_lines
    ["// namespace App.Legacy";
     "// public class OrderManager";
     "//     public void Save() {";
     "//         new SqlCommand(" ^^ quoted "sp_SaveOrder" ^^ ", conn);"].

(** The same graph with every node stored under one meaningless key. *)
Definition rekeyed (self : server) : server :=
  MkServer (map (fun kv => ("?", snd kv)) (nodes self)) (relationships self)
           (patterns self).

(** * Properties *)

(** ** Dictionaries *)

Section DictFacts.

Variable V : Type.
Implicit Types (d : dict V) (k : string) (v : V).

Lemma dict_get_set_same k v d : dict_get k (dict_set k v d) = Some v.
Proof.
  induction d as [|[k' v'] d IH]; simpl.
  - now rewrite String.eqb_refl.
  - destruct (String.eqb k k') eqn:E; simpl.
    + now rewrite String.eqb_refl.
    + now rewrite E.
Qed.

Lemma dict_get_set_other k k' v d :
  k <> k' -> dict_get k' (dict_set k v d) = dict_get k' d.
Proof.
  intros Hne. induction d as [|[k1 v1] d IH]; simpl.
  - destruct (String.eqb k' k) eqn:E; [|reflexivity].
    apply String.eqb_eq in E. congruence.
  - destruct (String.eqb k k1) eqn:E; simpl.
    + apply String.eqb_eq in E. subst k1.
      destruct (String.eqb k' k) eqn:E'; [|reflexivity].
      apply String.eqb_eq in E'. congruence.
    + now rewrite IH.
Qed.

Lemma dict_mem_set k k' v d :
  dict_mem k' (dict_set k v d) = String.eqb k k' || dict_mem k' d.
Proof.
  unfold dict_mem. destruct (String.eqb k k') eqn:E; simpl.
  - apply String.eqb_eq in E. subst. now rewrite dict_get_set_same.
  - apply String.eqb_neq in E. now rewrite dict_get_set_other.
Qed.

Lemma dict_mem_In k d : dict_mem k d = true <-> In k (dict_keys d).
Proof.
  unfold dict_mem. induction d as [|[k1 v1] d IH]; simpl.
  - split; [discriminate | tauto].
  - destruct (String.eqb k k1) eqn:E.
    + apply String.eqb_eq in E. subst. tauto.
    + apply String.eqb_neq in E. rewrite IH. split; [tauto|].
      intros [H|H]; [congruence | exact H].
Qed.

Lemma dict_keys_set k v d :
  dict_keys (dict_set k v d) =
  if dict_mem k d then dict_keys d else dict_keys d ++ [k].
Proof.
  unfold dict_mem. induction d as [|[k1 v1] d IH]; simpl; [reflexivity|].
  destruct (String.eqb k k1) eqn:E; simpl.
  - apply String.eqb_eq in E. now subst.
  - rewrite IH. now destruct (dict_get k d).
Qed.

Lemma dict_set_set k v v' d : dict_set k v (dict_set k v' d) = dict_set k v d.
Proof.
  induction d as [|[k1 v1] d IH]; simpl.
  - now rewrite String.eqb_refl.
  - destruct (String.eqb k k1) eqn:E; simpl.
    + now rewrite String.eqb_refl.
    + now rewrite E, IH.
Qed.

Lemma dict_set_comm k k' v v' d :
  k <> k' -> dict_mem k d = true ->
  dict_set k v (dict_set k' v' d) = dict_set k' v' (dict_set k v d).
Proof.
  intros Hne. unfold dict_mem.
  induction d as [|[k1 v1] d IH]; simpl; [discriminate|].
  destruct (String.eqb k k1) eqn:E.
  - intros _. apply String.eqb_eq in E. subst k1.
    assert (E' : String.eqb k' k = false) by (apply String.eqb_neq; congruence).
    rewrite E'. simpl. now rewrite String.eqb_refl, E'.
  - intros Hm. destruct (String.eqb k' k1) eqn:E'; simpl.
    + apply String.eqb_eq in E'. subst k1. now rewrite E, String.eqb_refl.
    + now rewrite E, E', IH.
Qed.

Lemma dict_keys_NoDup_set k v d :
  NoDup (dict_keys d) -> NoDup (dict_keys (dict_set k v d)).
Proof.
  intros Hnd. rewrite dict_keys_set.
  destruct (dict_mem k d) eqn:E; [exact Hnd|].
  apply NoDup_app; [exact Hnd | repeat constructor; simpl; tauto |].
  intros x Hx [<-|[]]. apply dict_mem_In in Hx. congruence.
Qed.

End DictFacts.

(** ** The scan as the sum of what each path contributes *)

Section ScanFacts.

Variable fs : file_system.

Lemma fold_add_node ns : forall self r,
  fold_left add_node ns (self, r) =
  (MkServer (upsert_all (nodes self) ns) (relationships self) (patterns self),
   MkResults (files_analyzed r) (nodes_created r + List.length ns)
             (relationships_found r) (patterns_identified r) (errors r)).
Proof.
  induction ns as [|n ns IH]; intros self r; simpl.
  - destruct self, r; simpl. now rewrite Nat.add_0_r.
  - rewrite IH. simpl. now rewrite Nat.add_succ_r.
Qed.

Lemma fold_add_relationship rels : forall self r,
  fold_left add_relationship rels (self, r) =
  (MkServer (nodes self) (relationships self ++ rels) (patterns self),
   MkResults (files_analyzed r) (nodes_created r)
             (relationships_found r + List.length rels)
             (patterns_identified r) (errors r)).
Proof.
  induction rels as [|x rels IH]; intros self r; simpl.
  - destruct self, r; simpl. now rewrite app_nil_r, Nat.add_0_r.
  - rewrite IH. simpl. now rewrite <- app_assoc, Nat.add_succ_r.
Qed.

Lemma apply_no_effect acc : apply_effect no_effect acc = acc.
Proof.
  destruct acc as [[ns rs ps] [a b c d e]]. unfold apply_effect. simpl.
  now rewrite !app_nil_r, !Nat.add_0_r.
Qed.

Lemma apply_effect_app e1 e2 acc :
  apply_effect (effect_app e1 e2) acc = apply_effect e2 (apply_effect e1 acc).
Proof.
  unfold apply_effect, effect_app, upsert_all. simpl.
  now rewrite fold_left_app, !length_app, !app_assoc, !Nat.add_assoc.
Qed.

Lemma analyze_path_effect acc p :
  analyze_path fs acc p = apply_effect (file_effect fs p) acc.
Proof.
  destruct acc as [self r].
  unfold analyze_path, exists_, _analyze_file_detailed, file_effect, apply_effect.
  destruct (fs (PyPath.str (PyPath.Path p))) as [[content| |e]|]; simpl.
  - destruct (dispatch_by_suffix (PyPath.Path p) content) as [ns rels].
    rewrite fold_add_node, fold_add_relationship. simpl.
    now rewrite Nat.add_1_r, app_nil_r.
  - destruct self, r; simpl.
    now rewrite !app_nil_r, !Nat.add_0_r, Nat.add_1_r.
  - destruct self, r; simpl. now rewrite app_nil_r, !Nat.add_0_r.
  - destruct self, r; simpl. now rewrite app_nil_r, !Nat.add_0_r.
Qed.

Lemma scan_is_effect paths : forall acc,
  scan fs paths acc = apply_effect (scan_effect fs paths) acc.
Proof.
  unfold scan. induction paths as [|p paths IH]; intros acc; simpl.
  - now rewrite apply_no_effect.
  - now rewrite IH, apply_effect_app, analyze_path_effect.
Qed.

Lemma scan_effect_app ps qs :
  scan_effect fs (ps ++ qs) = effect_app (scan_effect fs ps) (scan_effect fs qs).
Proof.
  induction ps as [|p ps IH]; simpl.
  - now destruct (scan_effect fs qs).
  - rewrite IH. unfold effect_app. simpl.
    now rewrite !app_assoc, !Nat.add_assoc.
Qed.

(** [analyze_specific_files] in one equation. *)
Lemma analyze_specific_files_effect self paths :
  analyze_specific_files fs self paths =
  (let acc := apply_effect (scan_effect fs paths) (self, empty_results) in
   (fst acc,
    MkResults (files_analyzed (snd acc)) (nodes_created (snd acc))
              (relationships_found (snd acc))
              (List.length (_identify_patterns (fst acc)))
              (errors (snd acc)))).
Proof.
  unfold analyze_specific_files. rewrite scan_is_effect.
  now destruct (apply_effect (scan_effect fs paths) (self, empty_results)).
Qed.

End ScanFacts.

(** ** Upserting the same nodes again *)

Section UpsertFacts.

Implicit Types (store : dict CodeNode.t) (n m : CodeNode.t).

Lemma upsert_all_snoc store ns n :
  upsert_all store (ns ++ [n]) = upsert (upsert_all store ns) n.
Proof. unfold upsert_all. now rewrite fold_left_app. Qed.

Lemma upsert_all_keeps_key k ns : forall store,
  dict_mem k store = true -> dict_mem k (upsert_all store ns) = true.
Proof.
  induction ns as [|n ns IH]; intros store Hk; simpl; [exact Hk|].
  apply IH. unfold upsert. rewrite dict_mem_set, Hk. apply orb_true_r.
Qed.

Lemma upsert_all_has_key ns : forall store,
  Forall (fun m => dict_mem (CodeNode.id m) (upsert_all store ns) = true) ns.
Proof.
  induction ns as [|n ns IH]; intros store; simpl; constructor.
  - apply upsert_all_keeps_key. unfold upsert.
    now rewrite dict_mem_set, String.eqb_refl.
  - apply IH.
Qed.

(** A final upsert of [n] makes an earlier one irrelevant, once every
    key written in between is present. *)
Lemma upsert_absorbs n ns : forall store,
  Forall (fun m => dict_mem (CodeNode.id m) store = true) ns ->
  upsert (upsert_all (upsert store n) ns) n = upsert (upsert_all store ns) n.
Proof.
  induction ns as [|m ns IH]; intros store Hkeys; simpl.
  - unfold upsert. apply dict_set_set.
  - inversion Hkeys as [|? ? Hm Hrest]; subst.
    destruct (string_dec (CodeNode.id m) (CodeNode.id n)) as [E|E].
    + replace (upsert (upsert store n) m) with (upsert store m)
        by (unfold upsert; rewrite <- E; now rewrite dict_set_set).
      reflexivity.
    + replace (upsert (upsert store n) m) with (upsert (upsert store m) n)
        by (unfold upsert; symmetry; now apply dict_set_comm).
      apply IH. eapply Forall_impl; [|exact Hrest].
      intros a Ha. unfold upsert. rewrite dict_mem_set, Ha. apply orb_true_r.
Qed.

Lemma upsert_all_NoDup ns : forall store,
  NoDup (dict_keys store) -> NoDup (dict_keys (upsert_all store ns)).
Proof.
  induction ns as [|n ns IH]; intros store Hnd; simpl; [exact Hnd|].
  apply IH. unfold upsert. now apply dict_keys_NoDup_set.
Qed.

Lemma upsert_all_twice ns : forall store,
  upsert_all (upsert_all store ns) ns = upsert_all store ns.
Proof.
  induction ns as [|n ns IH] using rev_ind; intros store; [reflexivity|].
  rewrite !upsert_all_snoc, upsert_absorbs by apply upsert_all_has_key.
  now rewrite IH.
Qed.

End UpsertFacts.

(** Analyzing the same paths again leaves the node store as it is. *)
Lemma rescan_keeps_nodes fs self paths :
  nodes (fst (analyze_specific_files fs
                (fst (analyze_specific_files fs self paths)) paths)) =
  nodes (fst (analyze_specific_files fs self paths)).
Proof.
  rewrite !analyze_specific_files_effect. simpl. apply upsert_all_twice.
Qed.

(** ** Source scanner: counters, errors and the node store *)

Lemma scan_effect_nodes_length fs paths :
  List.length (emitted_nodes (scan_effect fs paths)) =
  list_sum (map (fun p => List.length (emitted_nodes (file_effect fs p))) paths).
Proof.
  induction paths as [|p paths IH]; simpl; [reflexivity|].
  now rewrite length_app, IH.
Qed.

Lemma analyze_keeps_patterns fs self paths :
  patterns (fst (analyze_specific_files fs self paths)) = patterns self.
Proof. now rewrite analyze_specific_files_effect. Qed.

(** C1.  [find_patterns_by_type] filters [self.patterns], which
    [analyze_specific_files] never assigns: on a server that has only
    analyzed files the lookup is empty for every type, while the
    recognizer run by the same call finds the CRUD pattern of the
    manager class and reports it in [patterns_identified]. *)
Theorem find_patterns_by_type_misses_recognized_patterns :
  (forall fs paths t,
      find_patterns_by_type (fst (analyze_specific_files fs new_server paths)) t = [])
  /\ (let out := analyze_specific_files sample_fs new_server ["CustomerManager.cs"] in
      map CodePattern.pattern_type (_identify_patterns (fst out)) = ["database_crud"]
      /\ patterns_identified (snd out) = 1
      /\ find_patterns_by_type (fst out) "database_crud" = []).
Proof.
  split.
  - intros fs paths t. unfold find_patterns_by_type.
    now rewrite analyze_keeps_patterns.
  - vm_compute. repeat split.
Qed.

(** C3, as the specification states it, fails: a file that exists but
    does not decode leaves [errors] empty and is counted in
    [files_analyzed]. *)
Lemma undecodable_file_is_counted_and_silent :
  let out := snd (analyze_specific_files sample_fs new_server ["Legacy.cs"]) in
  sample_fs (PyPath.str (PyPath.Path "Legacy.cs")) = Some UnicodeDecodeError
  /\ errors out = []
  /\ files_analyzed out = 1.
Proof. vm_compute. repeat split. Qed.

(** C3, amended.  A path that exists but whose content fails decoding
    changes the outcome of a scan in one place only: [files_analyzed] is
    one larger than for the same list without that path.  No error is
    recorded for it, it adds no node and no relationship, and the paths
    before and after it are processed as they would be without it. *)
Theorem undecodable_file_only_counts
        (fs : file_system) (self : server) (before : list string)
        (file_path : string) (after : list string) :
  fs (PyPath.str (PyPath.Path file_path)) = Some UnicodeDecodeError ->
  let without := analyze_specific_files fs self (before ++ after) in
  analyze_specific_files fs self (before ++ file_path :: after) =
  (fst without,
   MkResults (S (files_analyzed (snd without))) (nodes_created (snd without))
             (relationships_found (snd without))
             (patterns_identified (snd without)) (errors (snd without))).
Proof.
  intros Hbad. cbv zeta. rewrite !analyze_specific_files_effect.
  rewrite !scan_effect_app. simpl scan_effect.
  unfold file_effect at 1. rewrite Hbad.
  unfold apply_effect, effect_app. simpl.
  now rewrite Nat.add_succ_r.
Qed.

(** The amended C3 at work: a schema file, the undecodable file and a
    missing path. *)
Lemma undecodable_file_only_counts_witness :
  sample_fs (PyPath.str (PyPath.Path "Legacy.cs")) = Some UnicodeDecodeError
  /\ analyze_specific_files sample_fs new_server
       (["GetCustomers.sql"] ++ "Legacy.cs" :: ["Missing.cs"]) =
     (fst (analyze_specific_files sample_fs new_server
             (["GetCustomers.sql"] ++ ["Missing.cs"])),
      MkResults 2 2 0 0 ["File not found: Missing.cs"]).
Proof.
  split; [reflexivity|].
  exact (undecodable_file_only_counts sample_fs new_server ["GetCustomers.sql"]
           "Legacy.cs" ["Missing.cs"] eq_refl).
Defined.

(** C6.  Analyzing a file a second time leaves the id-keyed node store
    as the first analysis left it: the same ids in the same order with
    the same nodes.  Every node that the extractor emits for the file is
    then stored under its id, and on a server that started empty no id
    is stored twice. *)
Theorem reanalysis_upserts_nodes
        (fs : file_system) (self : server) (file_path : string) :
  let first := fst (analyze_specific_files fs self [file_path]) in
  let second := fst (analyze_specific_files fs first [file_path]) in
  nodes second = nodes first
  /\ dict_keys (nodes second) = dict_keys (nodes first)
  /\ Forall (fun n => dict_mem (CodeNode.id n) (nodes first) = true)
            (emitted_nodes (file_effect fs file_path))
  /\ NoDup (dict_keys
              (nodes (fst (analyze_specific_files fs
                             (fst (analyze_specific_files fs new_server [file_path]))
                             [file_path])))).
Proof.
  cbv zeta.
  assert (H := rescan_keeps_nodes fs self [file_path]).
  split; [exact H|]. split; [now rewrite H|]. split.
  - rewrite analyze_specific_files_effect. simpl. rewrite app_nil_r.
    apply upsert_all_has_key.
  - rewrite !analyze_specific_files_effect. simpl.
    apply upsert_all_NoDup, upsert_all_NoDup. constructor.
Qed.

(** C10.  [nodes_created] is the number of nodes the extractors emit,
    summed over the paths of the call: each emission counts, also one
    whose id is already stored.  Naming the same file twice reports six
    creations for a store of three nodes. *)
Theorem nodes_created_counts_every_emission :
  (forall fs self paths,
      nodes_created (snd (analyze_specific_files fs self paths)) =
      list_sum (map (fun p => List.length (emitted_nodes (file_effect fs p))) paths))
  /\ (let out := analyze_specific_files sample_fs new_server
                   ["CustomerManager.cs"; "CustomerManager.cs"] in
      nodes_created (snd out) = 6 /\ List.length (nodes (fst out)) = 3).
Proof.
  split.
  - intros fs self paths. rewrite analyze_specific_files_effect. simpl.
    apply scan_effect_nodes_length.
  - vm_compute. split; reflexivity.
Qed.

(** ** Procedural-code extractor *)

Section CsharpFacts.

Import Extract.

Variable fp : string.

Ltac split_inv H := destruct H as [Hm Hrels]; split; simpl; auto.

Ltac appended_contains Hrels :=
  apply Forall_app; split; [exact Hrels|];
  repeat match goal with
         | |- context [if ?b then _ else _] => destruct b
         | |- context [match ?o with Some _ => _ | None => _ end] => destruct o
         end;
  repeat constructor.

Lemma scan_braces_inv line st : cs_invariant st -> cs_invariant (scan_braces line st).
Proof. intros H. split_inv H. Qed.

Lemma scan_namespace_inv n line st :
  cs_invariant st -> cs_invariant (scan_namespace fp n line st).
Proof.
  intros H. unfold scan_namespace.
  destruct (Re.re_match namespace_re line); [split_inv H | exact H].
Qed.

Lemma scan_class_inv n line st :
  cs_invariant st -> cs_invariant (scan_class fp n line st).
Proof.
  intros H. unfold scan_class.
  destruct (Re.re_match class_re line); [|exact H].
  split_inv H. appended_contains Hrels.
Qed.

Lemma scan_method_inv n line st :
  cs_invariant st -> cs_invariant (scan_method fp n line st).
Proof.
  intros H. unfold scan_method.
  destruct (Re.re_match method_re line); [|exact H].
  destruct (current_class st) eqn:Ec; [|exact H].
  destruct (_ && _); [|exact H].
  split_inv H. appended_contains Hrels.
Qed.

Lemma scan_database_access_inv n line st :
  cs_invariant st -> cs_invariant (scan_database_access fp n line st).
Proof.
  intros H. unfold scan_database_access.
  destruct (existsb _ _); [|exact H].
  destruct (Re.re_search quoted_ident_re line); [|exact H].
  destruct (is_proc_name _); [|exact H].
  split_inv H. rewrite Hm. simpl. appended_contains Hrels.
Qed.

Lemma cs_line_inv st numbered : cs_invariant st -> cs_invariant (cs_line fp st numbered).
Proof.
  intros H. destruct numbered as [n line]. unfold cs_line.
  now apply scan_database_access_inv, scan_method_inv, scan_class_inv,
    scan_namespace_inv, scan_braces_inv.
Qed.

Lemma cs_fold_inv numbered : forall st,
  cs_invariant st -> cs_invariant (fold_left (cs_line fp) numbered st).
Proof.
  induction numbered as [|x xs IH]; intros st H; simpl; [exact H|].
  now apply IH, cs_line_inv.
Qed.

Lemma cs_scan_lines_inv lines : cs_invariant (cs_scan_lines fp lines).
Proof. apply cs_fold_inv. split; [reflexivity | constructor]. Qed.

End CsharpFacts.

(** C2.  The extractor never emits a [database_access] relationship:
    [in_method] starts false and no line of the scan sets it, so the
    branch that appends the edge is dead.  On a method that builds a
    [SqlCommand] for [sp_GetCustomers] the stored-procedure node is
    created on demand, but the only relationships are the two
    [contains] edges. *)
Theorem database_access_edge_is_never_emitted :
  (forall file_path content,
      filter is_database_access
             (snd (Extract._analyze_csharp_detailed file_path content)) = [])
  /\ (let out := Extract._analyze_csharp_detailed (PyPath.Path "CustomerData.cs")
                   customer_data_cs in
      map node_view (fst out) =
        [(NAMESPACE, "App.BusinessLogic", "CustomerData.cs:namespace:App.BusinessLogic");
         (CLASS, "CustomerManager", "CustomerData.cs:class:CustomerManager");
         (METHOD, "GetCustomers", "CustomerData.cs:method:CustomerManager:GetCustomers");
         (STORED_PROCEDURE, "sp_GetCustomers", "database:procedure:sp_GetCustomers")]
      /\ map edge_view (snd out) =
        [(CONTAINS, "CustomerData.cs:namespace:App.BusinessLogic",
          "CustomerData.cs:class:CustomerManager");
         (CONTAINS, "CustomerData.cs:class:CustomerManager",
          "CustomerData.cs:method:CustomerManager:GetCustomers")]).
Proof.
  split.
  - intros file_path content. unfold Extract._analyze_csharp_detailed. simpl.
    destruct (cs_scan_lines_inv (PyPath.str file_path)
                (PyStr.split_on PyStr.newline content)) as [_ Hrels].
    induction Hrels as [|r rels Hr _ IH]; simpl; [reflexivity|].
    unfold is_database_access at 1. now rewrite Hr.
  - vm_compute. split; reflexivity.
Qed.


(** The scan is by lines and each pattern is matched at the start of the
    stripped line: when the scenario is written on a single line only
    the namespace is found. *)
Remark single_line_layout_yields_namespace_only (file_path : PyPath.t) :
  let out := Extract._analyze_csharp_detailed file_path customer_manager_one_line_cs in
  map (fun n => CodeNode.node_type n) (fst out) = [NAMESPACE] /\ snd out = [].
Proof. vm_compute. split; reflexivity. Qed.

(** ** Schema-definition extractor *)

(** C4.  On the scenario file the extractor yields one stored-procedure
    node and one table node, but it reads both names off the upper-cased
    line: the table node is named CUSTOMERS, not Customers. *)
Theorem sql_scenario_names_are_upper_cased (file_path : PyPath.t) :
  map node_view (fst (Extract._analyze_sql_detailed file_path get_customers_sql)) =
  [(STORED_PROCEDURE, "SP_GETCUSTOMERS", "database:procedure:SP_GETCUSTOMERS");
   (TABLE, "CUSTOMERS", "database:table:CUSTOMERS")].
Proof. vm_compute. reflexivity. Qed.

(** ** Export document and summaries *)

Section SummaryFacts.

Variable A : Type.
Variable type_of : A -> string.

Lemma tally_count t xs : forall type_counts,
  summary_count t (fold_left (fun tc x => bump tc (type_of x)) xs type_counts) =
  summary_count t type_counts
  + List.length (filter (fun x => String.eqb (type_of x) t) xs).
Proof.
  unfold summary_count, dict_get_default.
  induction xs as [|x xs IH]; intros type_counts; simpl; [lia|].
  rewrite IH. unfold bump.
  destruct (String.eqb (type_of x) t) eqn:E; simpl.
  - apply String.eqb_eq in E. rewrite E, dict_get_set_same.
    unfold dict_get_default. lia.
  - apply String.eqb_neq in E. rewrite dict_get_set_other by exact E. lia.
Qed.

Lemma bump_total t (type_counts : dict nat) :
  summary_total (bump type_counts t) = summary_total type_counts + 1.
Proof.
  unfold summary_total, bump, dict_get_default, dict_values.
  induction type_counts as [|[k n] d IH]; simpl; [reflexivity|].
  destruct (String.eqb t k) eqn:E; simpl; [lia|].
  rewrite IH. lia.
Qed.

Lemma tally_total xs : forall type_counts,
  summary_total (fold_left (fun tc x => bump tc (type_of x)) xs type_counts) =
  summary_total type_counts + List.length xs.
Proof.
  induction xs as [|x xs IH]; intros type_counts; simpl; [lia|].
  rewrite IH, bump_total. lia.
Qed.

End SummaryFacts.

Lemma doc_summary_counts (d : dict nat) :
  flat_map (fun kv : string * json =>
              match snd kv with
              | JInt n => [(fst kv, n)]
              | _ => []
              end)
           (map (fun kv : string * nat => (fst kv, JInt (snd kv))) d) = d.
Proof.
  induction d as [|[k n] d IH]; simpl; [reflexivity|]. now rewrite IH.
Qed.

Lemma count_node_entries t ns :
  count_entries "type" t (map (fun n => JDict (CodeNode.to_dict n)) ns) =
  List.length (filter (fun n => String.eqb (NodeType_value (CodeNode.node_type n)) t) ns).
Proof.
  unfold count_entries. induction ns as [|n ns IH]; simpl; [reflexivity|].
  unfold has_field at 1. simpl.
  destruct (String.eqb _ t); simpl; now rewrite IH.
Qed.

Lemma count_relationship_entries t rels :
  count_entries "relationship_type" t
                (map (fun r => JDict (CodeRelationship.to_dict r)) rels) =
  List.length
    (filter (fun r => String.eqb
                        (RelationshipType_value (CodeRelationship.relationship_type r)) t)
            rels).
Proof.
  unfold count_entries. induction rels as [|r rels IH]; simpl; [reflexivity|].
  unfold has_field at 1. simpl.
  destruct (String.eqb _ t); simpl; now rewrite IH.
Qed.

(** C9.  In the document [export_graph_data] returns, for every type
    string the number of node entries of that type is the count
    [get_node_types_summary] gives it, and likewise for relationship
    entries and [get_relationship_types_summary]; the lengths of the two
    lists are the totals of the summaries; and the summaries written
    into the document are those two.  This holds for every state of the
    server, the empty one included. *)
Theorem export_counts_match_summaries (self : server) (t : string) :
  let doc := export_graph_data self in
  count_entries "type" t (doc_list "nodes" doc) =
    summary_count t (get_node_types_summary self)
  /\ count_entries "relationship_type" t (doc_list "relationships" doc) =
    summary_count t (get_relationship_types_summary self)
  /\ List.length (doc_list "nodes" doc) = summary_total (get_node_types_summary self)
  /\ List.length (doc_list "relationships" doc) =
    summary_total (get_relationship_types_summary self)
  /\ doc_summary "node_types" doc = get_node_types_summary self
  /\ doc_summary "relationship_types" doc = get_relationship_types_summary self.
Proof.
  cbv zeta. unfold export_graph_data, doc_list, doc_summary, json_counts. simpl.
  rewrite count_node_entries, count_relationship_entries, !doc_summary_counts.
  unfold get_node_types_summary, get_relationship_types_summary.
  rewrite (tally_count (fun n => NodeType_value (CodeNode.node_type n))).
  rewrite (tally_count (fun r => RelationshipType_value
                                   (CodeRelationship.relationship_type r))).
  rewrite (tally_total (fun n => NodeType_value (CodeNode.node_type n))).
  rewrite (tally_total (fun r => RelationshipType_value
                                   (CodeRelationship.relationship_type r))).
  rewrite !length_map. repeat split.
Qed.

(** ** Page grouping *)

Section PageFacts.

Variable self : server.
Variable page_node : CodeNode.t.

Lemma relate_fold rels : forall acc,
  fold_left (relate self page_node) rels acc =
  (fst acc ++ flat_map (fun rel => list_of_option (link self page_node rel)) rels,
   snd acc ++ filter (fun rel => touches rel (CodeNode.id page_node)) rels).
Proof.
  induction rels as [|rel rels IH]; intros [ns rs]; simpl.
  - now rewrite !app_nil_r.
  - rewrite IH. unfold relate, link, other_end.
    destruct (touches rel (CodeNode.id page_node)); simpl; [|reflexivity].
    destruct (dict_get _ (nodes self)); simpl; now rewrite <- !app_assoc.
Qed.

Lemma related_nodes_eq :
  fst (related self page_node) = page_node :: links self page_node.
Proof. unfold related. now rewrite relate_fold. Qed.

Lemma links_nonempty :
  links self page_node <> [] <->
  exists rel, In rel (relationships self)
              /\ touches rel (CodeNode.id page_node) = true
              /\ dict_mem (other_end page_node rel) (nodes self) = true.
Proof.
  unfold links. induction (relationships self) as [|rel rels IH]; simpl.
  - split; [congruence | intros [? [[] _]]].
  - unfold link at 1, dict_mem.
    destruct (touches rel (CodeNode.id page_node)) eqn:Et.
    + destruct (dict_get (other_end page_node rel) (nodes self)) eqn:Eg; simpl.
      * split; [|discriminate]. intros _. exists rel.
        repeat split; [now left | exact Et | now rewrite Eg].
      * rewrite IH. split.
        -- intros (r & Hin & Hr). exists r. tauto.
        -- intros (r & [<-|Hin] & Ht & Hm); [now rewrite Eg in Hm|].
           exists r. tauto.
    + simpl. rewrite IH. split.
      * intros (r & Hin & Hr). exists r. tauto.
      * intros (r & [<-|Hin] & Ht & Hm); [congruence|]. exists r. tauto.
Qed.

Lemma control_links_count :
  List.length (filter is_control (links self page_node)) =
  List.length (filter (control_link self page_node) (relationships self)).
Proof.
  unfold links. induction (relationships self) as [|rel rels IH]; simpl;
    [reflexivity|].
  rewrite filter_app, length_app, IH. unfold control_link at 2.
  destruct (link self page_node rel) as [n|]; simpl; [|reflexivity].
  now destruct (is_control n).
Qed.

End PageFacts.

Lemma page_patterns_by_page (self : server) :
  _find_page_patterns self =
  flat_map (fun page_node => list_of_option (page_pattern self page_node))
           (aspx_pages self).
Proof.
  unfold _find_page_patterns.
  enough (H : forall pages found,
             fold_left
               (fun found page_node =>
                  match page_pattern self page_node with
                  | Some pattern => found ++ [pattern]
                  | None => found
                  end) pages found =
             found ++ flat_map (fun page_node =>
                                  list_of_option (page_pattern self page_node)) pages)
    by apply H.
  induction pages as [|pg pages IH]; intros found; simpl.
  - now rewrite app_nil_r.
  - rewrite IH. destruct (page_pattern self pg); simpl; [|reflexivity].
    now rewrite <- app_assoc.
Qed.

Lemma aspx_page_is_no_control (self : server) (page_node : CodeNode.t) :
  In page_node (aspx_pages self) -> is_control page_node = false.
Proof.
  unfold aspx_pages. rewrite filter_In. intros [_ Hpage].
  unfold is_control. now destruct (CodeNode.node_type page_node).
Qed.

(** C8, as the specification states it, fails on both counts.  After the
    same page file has been analyzed twice its one control is linked by
    two relationships and [control_count] is 2, not the number of
    connected control nodes, which is 1.  And a page whose only
    relationship leads back to itself gets a pattern although no other
    node is connected to it. *)
Lemma page_pattern_counts_links_not_nodes :
  (exists pattern,
      In default_page (aspx_pages analyzed_twice)
      /\ page_pattern analyzed_twice default_page = Some pattern
      /\ control_count_of pattern = Some (JInt 2)
      /\ List.length (connected_controls analyzed_twice default_page) = 1)
  /\ (In loop_page (aspx_pages analyzed_loop)
      /\ page_pattern analyzed_loop loop_page <> None
      /\ other_connected_nodes analyzed_loop loop_page = []).
Proof.
  split.
  - eexists. split; [vm_compute; now left|].
    split; [vm_compute; reflexivity|]. split; vm_compute; reflexivity.
  - split; [vm_compute; now left|].
    split; [vm_compute; discriminate | vm_compute; reflexivity].
Qed.

(** C8, amended.  For every page node of the store, page grouping emits
    a pattern exactly when some relationship has the page's id at one
    end and the id of a stored node at the other (for a relationship
    from the page to itself that node is the page).  The pattern is then
    among the patterns returned, and its [control_count] is the number
    of relationships that link the page to a stored control: a control
    linked by several relationships is counted once for each. *)
Theorem page_pattern_follows_links (self : server) (page_node : CodeNode.t) :
  In page_node (aspx_pages self) ->
  (page_pattern self page_node <> None <->
   exists rel, In rel (relationships self)
               /\ touches rel (CodeNode.id page_node) = true
               /\ dict_mem (other_end page_node rel) (nodes self) = true)
  /\ match page_pattern self page_node with
     | Some pattern =>
         In pattern (_find_page_patterns self)
         /\ control_count_of pattern =
            Some (JInt (List.length (filter (control_link self page_node)
                                            (relationships self))))
     | None => True
     end.
Proof.
  intros Hpage. rewrite <- links_nonempty.
  assert (Hin : forall pattern, page_pattern self page_node = Some pattern ->
                                In pattern (_find_page_patterns self)).
  { intros pattern Hp. rewrite page_patterns_by_page. apply in_flat_map.
    exists page_node. split; [exact Hpage|]. rewrite Hp. now left. }
  revert Hin. unfold page_pattern.
  destruct (related self page_node) as [related_nodes related_relationships] eqn:Er.
  assert (Hn : related_nodes = page_node :: links self page_node)
    by (rewrite <- related_nodes_eq, Er; reflexivity).
  subst related_nodes. simpl List.length.
  destruct (links self page_node) as [|n ns] eqn:El; simpl (1 <? _).
  - intros _. split; [|exact I]. split; intros H; now elim H.
  - intros Hin. split; [split; intros _; discriminate|].
    split; [now apply Hin|]. unfold control_count_of. simpl dict_get.
    rewrite <- control_links_count, El.
    cbn [filter]. now rewrite (aspx_page_is_no_control _ _ Hpage).
Qed.

(** The amended C8 at work on the page that was analyzed twice. *)
Lemma page_pattern_follows_links_witness :
  In default_page (aspx_pages analyzed_twice)
  /\ match page_pattern analyzed_twice default_page with
     | Some pattern =>
         In pattern (_find_page_patterns analyzed_twice)
         /\ control_count_of pattern =
            Some (JInt (List.length (filter (control_link analyzed_twice default_page)
                                            (relationships analyzed_twice))))
     | None => True
     end.
Proof.
  assert (Hpage : In default_page (aspx_pages analyzed_twice))
    by (vm_compute; now left).
  split; [exact Hpage|].
  exact (proj2 (page_pattern_follows_links analyzed_twice default_page Hpage)).
Defined.

(** ** Suffixes of strings *)

Section StringFacts.

Implicit Types (a b c p s : string).

Lemma append_assoc a b c : (a ^^ b) ^^ c = a ^^ (b ^^ c).
Proof. induction a as [|x a IH]; simpl; [reflexivity | now rewrite IH]. Qed.

Lemma append_empty_r a : a ^^ EmptyString = a.
Proof. induction a as [|x a IH]; simpl; [reflexivity | now rewrite IH]. Qed.

Lemma length_append a b :
  String.length (a ^^ b) = String.length a + String.length b.
Proof. induction a as [|x a IH]; simpl; [reflexivity | now rewrite IH]. Qed.

Lemma rev_onto_spec s : forall acc, PyStr.rev_onto s acc = PyStr.rev s ^^ acc.
Proof.
  unfold PyStr.rev. induction s as [|x s IH]; intros acc; simpl; [reflexivity|].
  rewrite IH, (IH (String x EmptyString)), append_assoc. reflexivity.
Qed.

Lemma rev_cons x s : PyStr.rev (String x s) = PyStr.rev s ^^ String x EmptyString.
Proof. unfold PyStr.rev at 1. simpl. apply rev_onto_spec. Qed.

Lemma rev_append a b : PyStr.rev (a ^^ b) = PyStr.rev b ^^ PyStr.rev a.
Proof.
  induction a as [|x a IH]; simpl.
  - now rewrite append_empty_r.
  - now rewrite !rev_cons, IH, append_assoc.
Qed.

Lemma rev_involutive s : PyStr.rev (PyStr.rev s) = s.
Proof.
  induction s as [|x s IH]; [reflexivity|].
  now rewrite rev_cons, rev_append, IH.
Qed.

Lemma prefix_split p : forall s, String.prefix p s = true -> exists x, s = p ^^ x.
Proof.
  induction p as [|c p IH]; intros s H; simpl in *.
  - now exists s.
  - destruct s as [|d s]; [discriminate|]. simpl in H.
    destruct (ascii_dec c d) as [<-|]; [|discriminate].
    destruct (IH s H) as [x ->]. now exists x.
Qed.

Lemma substring_append_prefix a b : substring 0 (String.length a) (a ^^ b) = a.
Proof.
  induction a as [|x a IH]; simpl; [now destruct b | now rewrite IH].
Qed.

(** [s.endswith(p)] means [s == s[:-len(p)] + p]. *)
Lemma endswith_drop_last p s :
  PyStr.endswith p s = true -> s = PyStr.drop_last (String.length p) s ^^ p.
Proof.
  unfold PyStr.endswith, PyStr.drop_last. intros H.
  apply prefix_split in H. destruct H as [x Hx].
  assert (Hs : s = PyStr.rev x ^^ p)
    by (rewrite <- (rev_involutive s), Hx, rev_append, rev_involutive; reflexivity).
  rewrite Hs at 2 3. rewrite length_append, Nat.add_sub, substring_append_prefix.
  exact Hs.
Qed.

End StringFacts.

(** A manager class is a class named after its entity. *)
Lemma manager_name n :
  is_manager n = true ->
  CodeNode.node_type n = CLASS /\ CodeNode.name n = entity_of n ^^ "Manager".
Proof.
  unfold is_manager, entity_of. intros H. apply andb_true_iff in H.
  destruct H as [Hc He]. split.
  - now destruct (CodeNode.node_type n).
  - exact (endswith_drop_last "Manager" _ He).
Qed.

Lemma members_named e ns :
  Forall (fun n => CodeNode.node_type n = CLASS /\ CodeNode.name n = e ^^ "Manager")
         (members e ns).
Proof.
  apply Forall_forall. intros n Hin. unfold members in Hin.
  apply filter_In in Hin. destruct Hin as [_ H]. apply andb_true_iff in H.
  destruct H as [Hm He]. apply String.eqb_eq in He. subst e.
  now apply manager_name.
Qed.

(** ** CRUD grouping *)

Lemma dict_In_get (V : Type) (d : dict V) (k : string) (v : V) :
  NoDup (dict_keys d) -> In (k, v) d -> dict_get k d = Some v.
Proof.
  induction d as [|[k1 v1] d IH]; simpl; [tauto|].
  intros Hnd [Heq|Hin].
  - injection Heq as -> ->. now rewrite String.eqb_refl.
  - inversion Hnd as [|? ? Hnotin Hnd']; subst.
    destruct (String.eqb k k1) eqn:E; [|now apply IH].
    apply String.eqb_eq in E. subst k1. exfalso. apply Hnotin.
    change (In (fst (k, v)) (map fst d)). now apply in_map.
Qed.

Lemma group_by_entity_manager groups n :
  is_manager n = true ->
  group_by_entity groups n =
  dict_set (entity_of n) (dict_get_default (entity_of n) [] groups ++ [n]) groups.
Proof.
  unfold is_manager, group_by_entity. intros H.
  apply andb_true_iff in H. destruct H as [-> ->]. fold (entity_of n).
  unfold dict_mem, dict_get_default.
  destruct (dict_get (entity_of n) groups) eqn:E; simpl; [now rewrite E|].
  now rewrite dict_get_set_same, dict_set_set.
Qed.

Lemma group_by_entity_other groups n :
  is_manager n = false -> group_by_entity groups n = groups.
Proof.
  unfold is_manager, group_by_entity.
  destruct (NodeType_eqb _ _); simpl; [|reflexivity]. now intros ->.
Qed.

(** The groups after the loop: distinct keys, and under each key the
    manager classes of that entity; no key without a class. *)
Lemma entity_groups_spec ns :
  let groups := fold_left group_by_entity ns [] in
  NoDup (dict_keys groups)
  /\ forall e, dict_get e groups =
               match members e ns with
               | [] => None
               | g => Some g
               end.
Proof.
  induction ns as [|n ns [IHk IHg]] using rev_ind; cbv zeta.
  - split; [constructor | reflexivity].
  - rewrite fold_left_app. simpl. cbv zeta in IHk, IHg.
    set (groups := fold_left group_by_entity ns []) in *.
    unfold members in *. destruct (is_manager n) eqn:Em.
    + rewrite group_by_entity_manager by exact Em. split.
      * now apply dict_keys_NoDup_set.
      * intros e. rewrite filter_app. simpl. rewrite Em. simpl.
        destruct (String.eqb (entity_of n) e) eqn:Ee.
        -- apply String.eqb_eq in Ee. subst e. rewrite dict_get_set_same.
           unfold dict_get_default. rewrite IHg.
           now destruct (filter _ ns).
        -- apply String.eqb_neq in Ee. rewrite dict_get_set_other by exact Ee.
           now rewrite app_nil_r.
    + rewrite group_by_entity_other by exact Em. split; [exact IHk|].
      intros e. rewrite filter_app. simpl. rewrite Em. simpl.
      now rewrite app_nil_r.
Qed.

Lemma crud_fold self (groups : dict (list CodeNode.t)) : forall found,
  Forall (fun item => snd item <> []) groups ->
  fold_left
    (fun (found : list CodePattern.t) (item : string * list CodeNode.t) =>
       let (entity_name, group) := item in
       if 0 <? List.length group
       then found ++ [crud_pattern self entity_name group]
       else found) groups found =
  found ++ map (fun item => crud_pattern self (fst item) (snd item)) groups.
Proof.
  induction groups as [|[e g] groups IH]; intros found Hne; simpl.
  - now rewrite app_nil_r.
  - inversion Hne as [|? ? Hg Hrest]; subst. simpl in Hg.
    rewrite IH by exact Hrest.
    destruct g as [|n g]; [congruence|]. simpl. now rewrite <- app_assoc.
Qed.

Lemma crud_patterns_by_group self :
  let groups := entity_groups_of self in
  _find_crud_patterns self =
    map (fun item => crud_pattern self (fst item) (snd item)) groups
  /\ NoDup (dict_keys groups)
  /\ Forall (fun item => snd item = manager_group self (fst item)
                         /\ snd item <> []) groups
  /\ forall e, In e (dict_keys groups) <-> manager_group self e <> [].
Proof.
  cbv zeta. unfold entity_groups_of, manager_group.
  destruct (entity_groups_spec (dict_values (nodes self))) as [Hk Hg].
  cbv zeta in Hk, Hg.
  set (groups := fold_left group_by_entity (dict_values (nodes self)) []) in *.
  assert (Hitems : Forall (fun item =>
                             snd item = members (fst item) (dict_values (nodes self))
                             /\ snd item <> []) groups).
  { apply Forall_forall. intros [e g] Hin. simpl.
    apply dict_In_get in Hin; [|exact Hk]. rewrite Hg in Hin.
    destruct (members e (dict_values (nodes self))); [discriminate|].
    injection Hin as <-. split; [reflexivity | discriminate]. }
  split; [|split; [exact Hk | split; [exact Hitems|]]].
  - unfold _find_crud_patterns, entity_groups_of. fold groups.
    rewrite crud_fold; [reflexivity|].
    eapply Forall_impl; [|exact Hitems]. now intros item [_ H].
  - intros e. rewrite <- dict_mem_In. unfold dict_mem. rewrite Hg.
    destruct (members e (dict_values (nodes self))); split;
      congruence || discriminate.
Qed.

(** C7.  CRUD grouping groups the class nodes whose name ends with
    Manager by the name without that suffix.  It emits one pattern for
    each entity that has such a class and none for any other: the
    entity names of the patterns are pairwise distinct, and an entity
    name occurs among them exactly when its group is not empty.  Each
    pattern has type database_crud, holds the classes of its group, and
    its [template_data] is the entity name, the entity name plus s, the
    entity name plus ID and the entity name plus Manager, which is the
    name of every class of the group.  For the two
    classes ProductManager and CustomerManager the patterns are those of
    Product and Customer. *)
Theorem crud_grouping_by_manager_suffix :
  (forall self,
      let found := _find_crud_patterns self in
      NoDup (map entity_name_of found)
      /\ (forall e, In e (map entity_name_of found) <-> manager_group self e <> [])
      /\ Forall (fun pattern =>
                   let e := entity_name_of pattern in
                   CodePattern.pattern_type pattern = "database_crud"
                   /\ CodePattern.template_data pattern =
                      [("entity_name", JStr e);
                       ("table_name", JStr (e ^^ "s"));
                       ("primary_key", JStr (e ^^ "ID"));
                       ("manager_class", JStr (e ^^ "Manager"))]
                   /\ CodePattern.nodes pattern = manager_group self e
                   /\ CodePattern.nodes pattern <> []
                   /\ Forall (fun n => CodeNode.node_type n = CLASS
                                       /\ CodeNode.name n = e ^^ "Manager")
                             (CodePattern.nodes pattern))
                found)
  /\ map entity_name_of (_find_crud_patterns two_managers) = ["Product"; "Customer"]
  /\ map (fun n => CodeNode.name n) (dict_values (nodes two_managers)) =
     ["ProductManager"; "CustomerManager"].
Proof.
  split; [|split; vm_compute; reflexivity].
  intros self. cbv zeta.
  destruct (crud_patterns_by_group self) as (-> & Hk & Hitems & Hin).
  rewrite map_map. simpl. fold (dict_keys (entity_groups_of self)).
  split; [exact Hk|]. split; [exact Hin|].
  apply Forall_map. eapply Forall_impl; [|exact Hitems].
  intros [e g] [Hg Hne]. simpl in *. repeat split; try assumption.
  rewrite Hg. apply members_named.
Qed.

(** * Further properties of the engine *)

(** ** Scanner: accounting, errors and composition *)

Lemma scan_effect_accounting fs paths :
  counted (scan_effect fs paths) + List.length (reported (scan_effect fs paths)) =
  List.length paths.
Proof.
  induction paths as [|p paths IH]; simpl; [reflexivity|].
  rewrite length_app. unfold file_effect.
  destruct (fs (PyPath.str (PyPath.Path p))) as [[c| |e]|]; simpl; lia.
Qed.

Lemma scan_effect_reported fs paths :
  reported (scan_effect fs paths) = flat_map (path_error fs) paths.
Proof.
  induction paths as [|p paths IH]; simpl; [reflexivity|].
  rewrite IH. f_equal. unfold file_effect, path_error.
  now destruct (fs (PyPath.str (PyPath.Path p))) as [[c| |e]|].
Qed.

Lemma scan_effect_counted fs paths :
  counted (scan_effect fs paths) = List.length (filter (opens fs) paths).
Proof.
  induction paths as [|p paths IH]; simpl; [reflexivity|].
  rewrite IH. unfold file_effect, opens.
  now destruct (fs (PyPath.str (PyPath.Path p))) as [[c| |e]|].
Qed.

(** X1.  Every path of a call is accounted for exactly once: it is
    either counted in [files_analyzed] or reported in [errors]. *)
Theorem every_path_is_counted_or_reported
        (fs : file_system) (self : server) (file_paths : list string) :
  let r := snd (analyze_specific_files fs self file_paths) in
  files_analyzed r + List.length (errors r) = List.length file_paths.
Proof.
  cbv zeta. rewrite analyze_specific_files_effect. simpl.
  apply scan_effect_accounting.
Qed.

(** X2.  [errors] holds, in the order of the input, one string for each
    path that is missing (File not found) or whose reading raises
    something other than a decoding error (Error analyzing, with the
    exception's message), each naming the path as it was given;
    [files_analyzed] is the number of the other paths. *)
Theorem errors_name_each_failed_path
        (fs : file_system) (self : server) (file_paths : list string) :
  let r := snd (analyze_specific_files fs self file_paths) in
  errors r = flat_map (path_error fs) file_paths
  /\ files_analyzed r = List.length (filter (opens fs) file_paths).
Proof.
  cbv zeta. rewrite analyze_specific_files_effect. simpl.
  split; [apply scan_effect_reported | apply scan_effect_counted].
Qed.


Lemma upsert_all_get k ns : forall store,
  dict_get k (upsert_all store ns) =
  match last_emitted k ns with
  | Some n => Some n
  | None => dict_get k store
  end.
Proof.
  unfold last_emitted.
  induction ns as [|n ns IH] using rev_ind; intros store; [reflexivity|].
  rewrite upsert_all_snoc, rev_app_distr. simpl. unfold upsert.
  destruct (String.eqb (CodeNode.id n) k) eqn:E.
  - apply String.eqb_eq in E. subst k. apply dict_get_set_same.
  - apply String.eqb_neq in E. rewrite dict_get_set_other by exact E. apply IH.
Qed.

(** X4.  After a call, the node stored under an id is the last node
    emitted with that id during the call; an id that no emitted node
    carries keeps the node (or the absence) it had before. *)
Theorem store_holds_last_emission
        (fs : file_system) (self : server) (file_paths : list string) (k : string) :
  dict_get k (nodes (fst (analyze_specific_files fs self file_paths))) =
  match last_emitted k (flat_map (fun p => emitted_nodes (file_effect fs p)) file_paths) with
  | Some n => Some n
  | None => dict_get k (nodes self)
  end.
Proof.
  rewrite analyze_specific_files_effect. simpl. rewrite upsert_all_get.
  replace (emitted_nodes (scan_effect fs file_paths))
    with (flat_map (fun p => emitted_nodes (file_effect fs p)) file_paths);
    [reflexivity|].
  induction file_paths as [|p ps IH]; simpl; [reflexivity | now rewrite IH].
Qed.

Lemma upsert_all_keys ns : forall store,
  exists new_ids,
    dict_keys (upsert_all store ns) = dict_keys store ++ new_ids
    /\ List.length new_ids <= List.length ns.
Proof.
  induction ns as [|n ns IH]; intros store; simpl.
  - exists []. now rewrite app_nil_r.
  - destruct (IH (upsert store n)) as (ids & Hk & Hl). unfold upsert in Hk at 2.
    rewrite dict_keys_set in Hk.
    destruct (dict_mem (CodeNode.id n) store).
    + exists ids. split; [exact Hk | lia].
    + exists (CodeNode.id n :: ids). rewrite Hk, <- app_assoc. simpl.
      split; [reflexivity | lia].
Qed.

(** X5.  A call never removes or moves a stored id: the ids stored
    before are an initial segment of the ids stored after, and the store
    grows by at most [nodes_created] entries. *)
Theorem analysis_keeps_stored_ids
        (fs : file_system) (self : server) (file_paths : list string) :
  let out := analyze_specific_files fs self file_paths in
  exists new_ids,
    dict_keys (nodes (fst out)) = dict_keys (nodes self) ++ new_ids
    /\ List.length new_ids <= nodes_created (snd out).
Proof.
  cbv zeta. rewrite analyze_specific_files_effect. simpl.
  apply upsert_all_keys.
Qed.

Lemma dict_set_Forall (V : Type) (P : string * V -> Prop) k v (d : dict V) :
  Forall P d -> P (k, v) -> Forall P (dict_set k v d).
Proof.
  intros Hd Hkv. induction Hd as [|[k1 v1] d H1 Hd IH]; simpl.
  - now constructor.
  - destruct (String.eqb k k1); constructor; assumption.
Qed.

Lemma upsert_all_well_keyed ns : forall store,
  well_keyed store -> well_keyed (upsert_all store ns).
Proof.
  induction ns as [|n ns IH]; intros store [Hnd Hk]; simpl; [now split|].
  apply IH. split.
  - now apply dict_keys_NoDup_set.
  - now apply dict_set_Forall.
Qed.

(** X6.  A store in which every node sits under its own id, each id
    once, stays so through a call. *)
Theorem analysis_keeps_store_well_keyed
        (fs : file_system) (self : server) (file_paths : list string) :
  well_keyed (nodes self) ->
  well_keyed (nodes (fst (analyze_specific_files fs self file_paths))).
Proof.
  intros H. rewrite analyze_specific_files_effect. simpl.
  now apply upsert_all_well_keyed.
Qed.

(** X6 at work on the fresh server. *)
Lemma analysis_keeps_store_well_keyed_witness :
  well_keyed (nodes (fst (analyze_specific_files sample_fs new_server
                            ["CustomerData.cs"; "GetCustomers.sql"; "Default.aspx"]))).
Proof.
  apply (analysis_keeps_store_well_keyed sample_fs new_server
           ["CustomerData.cs"; "GetCustomers.sql"; "Default.aspx"]).
  split; constructor.
Defined.

(** X7.  A readable file whose suffix is none of [.cs], [.aspx], [.sql]
    is counted in [files_analyzed] and changes nothing else: no node,
    no relationship and no error, whatever it contains. *)
Theorem unsupported_suffix_only_counts
        (fs : file_system) (self : server) (before : list string)
        (file_path : string) (after : list string) (content : string) :
  fs (PyPath.str (PyPath.Path file_path)) = Some (Content content) ->
  supported_suffix file_path = false ->
  let without := analyze_specific_files fs self (before ++ after) in
  analyze_specific_files fs self (before ++ file_path :: after) =
  (fst without,
   MkResults (S (files_analyzed (snd without))) (nodes_created (snd without))
             (relationships_found (snd without))
             (patterns_identified (snd without)) (errors (snd without))).
Proof.
  intros Hread Hsuffix. cbv zeta. rewrite !analyze_specific_files_effect.
  rewrite !scan_effect_app. simpl scan_effect.
  assert (Hfile : file_effect fs file_path = MkEffect [] [] 1 []).
  { unfold file_effect. rewrite Hread. unfold dispatch_by_suffix.
    unfold supported_suffix in Hsuffix. cbv zeta in Hsuffix.
    apply orb_false_iff in Hsuffix. destruct Hsuffix as [Hsuffix Hsql].
    apply orb_false_iff in Hsuffix. destruct Hsuffix as [Hcs Haspx].
    now rewrite Hcs, Haspx, Hsql. }
  rewrite Hfile. unfold apply_effect, effect_app. simpl.
  now rewrite Nat.add_succ_r.
Qed.

(** X7 at work: a text file that declares a manager class is counted and
    ignored. *)
Lemma unsupported_suffix_only_counts_witness :
  analyze_specific_files notes_fs new_server
    (["GetCustomers.sql"] ++ "notes.txt" :: ["Missing.cs"]) =
  (fst (analyze_specific_files notes_fs new_server
          (["GetCustomers.sql"] ++ ["Missing.cs"])),
   MkResults 2 2 0 0 ["File not found: Missing.cs"]).
Proof.
  exact (unsupported_suffix_only_counts notes_fs new_server ["GetCustomers.sql"]
           "notes.txt" ["Missing.cs"] eq_refl eq_refl).
Defined.

(** X8.  One call on a list of paths leaves the server as two calls on
    the two halves of the list do, and its counters and errors are
    those of the two calls put together; [patterns_identified] is that
    of the later call. *)
Theorem analysis_composes
        (fs : file_system) (self : server) (ps qs : list string) :
  let a := analyze_specific_files fs self ps in
  let b := analyze_specific_files fs (fst a) qs in
  let ab := analyze_specific_files fs self (ps ++ qs) in
  fst ab = fst b
  /\ files_analyzed (snd ab) = files_analyzed (snd a) + files_analyzed (snd b)
  /\ nodes_created (snd ab) = nodes_created (snd a) + nodes_created (snd b)
  /\ relationships_found (snd ab) =
     relationships_found (snd a) + relationships_found (snd b)
  /\ errors (snd ab) = errors (snd a) ++ errors (snd b)
  /\ patterns_identified (snd ab) = patterns_identified (snd b).
Proof.
  cbv zeta. rewrite !analyze_specific_files_effect, scan_effect_app.
  unfold apply_effect, effect_app, upsert_all. simpl.
  rewrite fold_left_app, !length_app, app_assoc.
  repeat split.
Qed.

(** ** Procedural-code extractor: structure of the result *)

Lemma forallb_impl (A : Type) (f g : A -> bool) (l : list A) :
  (forall x, f x = true -> g x = true) -> forallb f l = true -> forallb g l = true.
Proof.
  intros H. induction l as [|x l IH]; simpl; [reflexivity|].
  intros Hl. apply andb_true_iff in Hl. destruct Hl as [Hx Hl].
  now rewrite (H _ Hx), IH.
Qed.

Lemma has_node_app ty i ns more :
  has_node ty i ns = true -> has_node ty i (ns ++ more) = true.
Proof. unfold has_node. rewrite existsb_app. now intros ->. Qed.

Lemma has_node_last ty i n ns :
  CodeNode.node_type n = ty -> CodeNode.id n = i -> has_node ty i (ns ++ [n]) = true.
Proof.
  intros Ht Hi. unfold has_node, is_type. rewrite existsb_app. simpl.
  rewrite Ht, Hi, String.eqb_refl.
  replace (NodeType_eqb ty ty) with true by (now destruct ty).
  simpl. apply orb_true_r.
Qed.

Lemma structural_edge_app ns more r :
  structural_edge ns r = true -> structural_edge (ns ++ more) r = true.
Proof.
  unfold structural_edge. intros H.
  apply andb_true_iff in H. destruct H as [-> H]. simpl.
  apply orb_true_iff in H. apply orb_true_iff.
  destruct H as [H|H]; [left | right];
    apply andb_true_iff in H; destruct H as [H1 H2];
    now rewrite (has_node_app _ _ _ more H1), (has_node_app _ _ _ more H2).
Qed.

Lemma contained_by_class_app fp ns rels n more more_rels :
  contained_by_class fp ns rels n = true ->
  contained_by_class fp (ns ++ more) (rels ++ more_rels) n = true.
Proof.
  unfold contained_by_class. destruct (metadata_string "class" n); [|discriminate].
  intros H. apply andb_true_iff in H. destruct H as [H1 H2].
  now rewrite (has_node_app _ _ _ more H1), existsb_app, H2.
Qed.

Section CsharpStructure.

Import Extract.

Variable fp : string.
Variable line_count : nat.

(** The state after a step that appended [more] nodes and [more_rels]
    relationships and left the scope as [ns'], [cls']. *)
Lemma cs_structure_extend st more more_rels ns' cls' bc :
  cs_structure fp line_count st ->
  (forall x, ns' = Some x ->
             has_node NAMESPACE (fp ^^ ":namespace:" ^^ x) (cs_nodes st ++ more) = true) ->
  (forall c, cls' = Some c ->
             has_node CLASS (fp ^^ ":class:" ^^ c) (cs_nodes st ++ more) = true) ->
  forallb (structural_edge (cs_nodes st ++ more)) more_rels = true ->
  forallb (fun n => negb (is_type METHOD n)
                    || contained_by_class fp (cs_nodes st ++ more)
                                          (cs_relationships st ++ more_rels) n)
          more = true ->
  forallb (cs_node_wf fp line_count) more = true ->
  NoDup (map CodeNode.id
             (filter (is_type STORED_PROCEDURE) (cs_nodes st ++ more))) ->
  cs_structure fp line_count
    (MkScan (cs_nodes st ++ more) (cs_relationships st ++ more_rels) ns' cls'
            (in_method st) bc).
Proof.
  intros (Hm & Hns & Hcls & Hedges & Hmethods & Hwf & Hnd) Hns' Hcls' Hnew Hnewm Hneww Hnd'.
  unfold cs_structure. simpl. repeat split; try assumption.
  - rewrite forallb_app, Hnew, andb_true_r.
    eapply forallb_impl; [|exact Hedges]. intros r. apply structural_edge_app.
  - rewrite forallb_app, Hnewm, andb_true_r.
    eapply forallb_impl; [|exact Hmethods]. intros n Hn.
    apply orb_true_iff in Hn. apply orb_true_iff.
    destruct Hn as [Hn|Hn]; [now left | right].
    now apply contained_by_class_app.
  - now rewrite forallb_app, Hwf, Hneww.
Qed.

Lemma cs_structure_same st bc :
  cs_structure fp line_count st ->
  cs_structure fp line_count
    (MkScan (cs_nodes st) (cs_relationships st) (current_namespace st)
            (current_class st) (in_method st) bc).
Proof. intros H. exact H. Qed.

Lemma filter_sp_app_other ns n :
  is_type STORED_PROCEDURE n = false ->
  filter (is_type STORED_PROCEDURE) (ns ++ [n]) = filter (is_type STORED_PROCEDURE) ns.
Proof. intros H. rewrite filter_app. simpl. now rewrite H, app_nil_r. Qed.

(** A namespace, class or method node built by the scan has the form
    [cs_node_wf] asks for. *)
Lemma cs_node_wf_in_file n (md : dict json) (ty : NodeType) (i nm : string) :
  1 <= n <= line_count ->
  match ty with
  | NAMESPACE => i = fp ^^ ":namespace:" ^^ nm
  | CLASS => i = fp ^^ ":class:" ^^ nm
  | METHOD =>
      exists cls, dict_get "class" md = Some (JStr cls)
                  /\ i = fp ^^ ":method:" ^^ cls ^^ ":" ^^ nm
  | _ => False
  end ->
  cs_node_wf fp line_count (CodeNode.Make i nm ty fp n md) = true.
Proof.
  intros Hn Hi. unfold cs_node_wf, line_in_file, metadata_string.
  cbn [CodeNode.node_type CodeNode.file_path CodeNode.line_number CodeNode.id
       CodeNode.name CodeNode.metadata].
  assert (H1 : (1 <=? n) = true) by (apply Nat.leb_le; lia).
  assert (H2 : (n <=? line_count) = true) by (apply Nat.leb_le; lia).
  rewrite H1, H2, String.eqb_refl.
  destruct ty; try contradiction; cbn [andb].
  - subst i. apply String.eqb_refl.
  - destruct Hi as (cls & -> & ->). apply String.eqb_refl.
  - subst i. apply String.eqb_refl.
Qed.

Lemma scan_namespace_structure n line st :
  1 <= n <= line_count ->
  cs_structure fp line_count st -> cs_structure fp line_count (scan_namespace fp n line st).
Proof.
  intros Hn H. unfold scan_namespace.
  destruct (Re.re_match namespace_re line) as [m|]; [|exact H].
  pose proof H as (Hm & Hns & Hcls & _ & _ & _ & Hnd).
  replace (cs_relationships st) with (cs_relationships st ++ []) by apply app_nil_r.
  apply cs_structure_extend; try assumption.
  - intros x Hx. injection Hx as <-. now apply has_node_last.
  - intros c Hc. now apply has_node_app, Hcls.
  - reflexivity.
  - reflexivity.
  - cbn [forallb]. rewrite andb_true_r. apply cs_node_wf_in_file; [exact Hn|].
    first [reflexivity | eexists; split; reflexivity].
  - now rewrite filter_sp_app_other.
Qed.

Lemma scan_class_structure n line st :
  1 <= n <= line_count ->
  cs_structure fp line_count st -> cs_structure fp line_count (scan_class fp n line st).
Proof.
  intros Hn H. unfold scan_class.
  destruct (Re.re_match class_re line) as [m|]; [|exact H].
  pose proof H as (Hm & Hns & Hcls & _ & _ & _ & Hnd).
  apply cs_structure_extend; try assumption.
  - intros x Hx. now apply has_node_app, Hns.
  - intros c Hc. injection Hc as <-. now apply has_node_last.
  - destruct (current_namespace st) as [ns|] eqn:Ens; [|reflexivity].
    destruct (truthy (Some ns)); [|reflexivity].
    cbn [forallb]. rewrite andb_true_r. unfold structural_edge.
    apply andb_true_iff. split; [reflexivity|]. apply orb_true_iff. left.
    apply andb_true_iff. split.
    + now apply has_node_app, Hns.
    + now apply has_node_last.
  - reflexivity.
  - cbn [forallb]. rewrite andb_true_r. apply cs_node_wf_in_file; [exact Hn|].
    first [reflexivity | eexists; split; reflexivity].
  - now rewrite filter_sp_app_other.
Qed.

Lemma scan_method_structure n line st :
  1 <= n <= line_count ->
  cs_structure fp line_count st -> cs_structure fp line_count (scan_method fp n line st).
Proof.
  intros Hn H. unfold scan_method.
  destruct (Re.re_match method_re line) as [m|]; [|exact H].
  destruct (current_class st) as [cls|] eqn:Ecls; [|exact H].
  destruct (truthy (Some cls) && negb (PyStr.startswith "//" line)) eqn:Eguard;
    [|exact H].
  apply andb_true_iff in Eguard. destruct Eguard as [Etruthy _]. rewrite Etruthy.
  pose proof H as (Hm & Hns & Hcls & _ & _ & _ & Hnd).
  rewrite <- Ecls.
  apply cs_structure_extend; try assumption.
  - intros x Hx. now apply has_node_app, Hns.
  - intros c Hc. now apply has_node_app, Hcls.
  - cbn [forallb]. rewrite andb_true_r. unfold structural_edge.
    apply andb_true_iff. split; [reflexivity|]. apply orb_true_iff. right.
    apply andb_true_iff. split.
    + now apply has_node_app, Hcls.
    + now apply has_node_last.
  - cbn [forallb]. rewrite andb_true_r. apply orb_true_iff. right.
    unfold contained_by_class, metadata_string.
    cbn [CodeNode.metadata CodeNode.id dict_get String.eqb Ascii.eqb Bool.eqb].
    apply andb_true_iff. split; [now apply has_node_app, Hcls|].
    rewrite existsb_app. apply orb_true_iff. right.
    cbn [existsb CodeRelationship.new CodeRelationship.target_id
         CodeRelationship.source_id].
    now rewrite !String.eqb_refl.
  - cbn [forallb]. rewrite andb_true_r. apply cs_node_wf_in_file; [exact Hn|].
    first [reflexivity | eexists; split; reflexivity].
  - now rewrite filter_sp_app_other.
Qed.

Lemma has_id_false_not_In i ns :
  has_id i ns = false -> ~ In i (map CodeNode.id ns).
Proof.
  unfold has_id. intros H Hin.
  assert (existsb (String.eqb i) (map CodeNode.id ns) = true).
  { apply existsb_exists. exists i. split; [exact Hin | apply String.eqb_refl]. }
  congruence.
Qed.

Lemma scan_database_access_structure n line st :
  cs_structure fp line_count st ->
  cs_structure fp line_count (scan_database_access fp n line st).
Proof.
  intros H. unfold scan_database_access.
  destruct (existsb _ data_access_keywords); [|exact H].
  destruct (Re.re_search quoted_ident_re line) as [m|]; [|exact H].
  destruct (is_proc_name (Re.group_of 1 m)) eqn:Ename; [|exact H].
  pose proof H as (Hm & Hns & Hcls & _ & _ & _ & Hnd).
  apply cs_structure_extend; try assumption.
  - intros x Hx. now apply has_node_app, Hns.
  - intros c Hc. now apply has_node_app, Hcls.
  - rewrite Hm. simpl. now destruct (current_class st).
  - destruct (negb (has_id _ (cs_nodes st))); reflexivity.
  - destruct (negb (has_id _ (cs_nodes st))); [|reflexivity].
    unfold cs_node_wf. simpl. now rewrite String.eqb_refl, Ename.
  - destruct (has_id _ (cs_nodes st)) eqn:Eid; simpl.
    + now rewrite app_nil_r.
    + rewrite filter_app, map_app. simpl.
      apply NoDup_app; [exact Hnd | repeat constructor; simpl; tauto |].
      intros x Hx [<-|[]]. apply has_id_false_not_In in Eid. apply Eid.
      apply in_map_iff in Hx. destruct Hx as (a & Ha & Hin).
      apply filter_In in Hin. apply in_map_iff. exists a. tauto.
Qed.

Lemma cs_line_structure st numbered :
  1 <= fst numbered <= line_count ->
  cs_structure fp line_count st -> cs_structure fp line_count (cs_line fp st numbered).
Proof.
  destruct numbered as [n line]. simpl. intros Hn H. unfold cs_line.
  apply scan_database_access_structure, scan_method_structure; [exact Hn|].
  apply scan_class_structure; [exact Hn|].
  apply scan_namespace_structure; [exact Hn|].
  unfold scan_braces. now apply cs_structure_same.
Qed.

Lemma cs_fold_structure numbered : forall st,
  Forall (fun x => 1 <= fst x <= line_count) numbered ->
  cs_structure fp line_count st ->
  cs_structure fp line_count (fold_left (cs_line fp) numbered st).
Proof.
  induction numbered as [|x xs IH]; intros st Hn H; simpl; [exact H|].
  inversion Hn; subst. apply IH; [assumption|]. now apply cs_line_structure.
Qed.

End CsharpStructure.

Lemma enumerate1_bounds (A : Type) (l : list A) :
  Forall (fun x => 1 <= fst x <= List.length l) (Extract.enumerate1 l).
Proof.
  apply Forall_forall. intros [k a] Hin. unfold Extract.enumerate1 in Hin.
  apply in_combine_l in Hin. apply in_seq in Hin. simpl. lia.
Qed.

Lemma csharp_structure (file_path : PyPath.t) (content : string) :
  let lines := PyStr.split_on PyStr.newline content in
  cs_structure (PyPath.str file_path) (List.length lines)
               (Extract.cs_scan_lines (PyPath.str file_path) lines).
Proof.
  cbv zeta. unfold Extract.cs_scan_lines.
  apply cs_fold_structure; [apply enumerate1_bounds|].
  unfold cs_structure. simpl. repeat split; try discriminate. constructor.
Qed.

(** X9.  Every relationship the procedural-code extractor emits is a
    [contains] edge between two nodes emitted for the same file: from a
    namespace node to a class node, or from a class node to a method
    node. *)
Theorem csharp_edges_join_emitted_nodes (file_path : PyPath.t) (content : string) :
  let out := Extract._analyze_csharp_detailed file_path content in
  forallb (structural_edge (fst out)) (snd out) = true.
Proof.
  cbv zeta. unfold Extract._analyze_csharp_detailed. simpl.
  now destruct (csharp_structure file_path content) as (_ & _ & _ & H & _).
Qed.

(** X10.  Every method node the procedural-code extractor emits has a
    [contains] edge leading to it from the node of the class it records
    in its metadata, and that class node was emitted for the same
    file. *)
Theorem csharp_methods_are_contained (file_path : PyPath.t) (content : string) :
  let out := Extract._analyze_csharp_detailed file_path content in
  Forall (fun n => CodeNode.node_type n = METHOD ->
                   contained_by_class (PyPath.str file_path) (fst out) (snd out) n = true)
         (fst out).
Proof.
  cbv zeta. unfold Extract._analyze_csharp_detailed. simpl.
  destruct (csharp_structure file_path content) as (_ & _ & _ & _ & H & _).
  cbv zeta in H. apply Forall_forall. intros n Hin Hty.
  rewrite forallb_forall in H. specialize (H n Hin).
  unfold is_type in H. rewrite Hty in H. exact H.
Qed.

(** X11.  The procedural-code extractor emits only namespace, class,
    method and stored-procedure nodes.  The first three carry the path
    of the file, a line number between 1 and the number of lines, and
    an id made of the path, the kind and the name (for a method, the
    class and the name).  A stored-procedure node carries the file path
    [database], line 0, the id [database:procedure:] followed by its
    name, and a name that starts with [sp_] or [usp_]; within one file
    no two stored-procedure nodes share an id. *)
Theorem csharp_nodes_are_well_formed (file_path : PyPath.t) (content : string) :
  let nodes := fst (Extract._analyze_csharp_detailed file_path content) in
  forallb (cs_node_wf (PyPath.str file_path)
                      (List.length (PyStr.split_on PyStr.newline content)))
          nodes = true
  /\ NoDup (map CodeNode.id (filter (is_type STORED_PROCEDURE) nodes)).
Proof.
  cbv zeta. unfold Extract._analyze_csharp_detailed. simpl.
  now destruct (csharp_structure file_path content) as (_ & _ & _ & _ & _ & H1 & H2).
Qed.

(** ** Markup extractor: structure of the result *)

Section AspxStructure.

Import Extract.

Variable fp page_node_id : string.
Variable line_count : nat.

Lemma grown_refl acc : grown_by_controls fp page_node_id line_count acc acc.
Proof. exists []. destruct acc. simpl. now rewrite !app_nil_r. Qed.

Lemma grown_trans a b c : grown_by_controls fp page_node_id line_count a b -> grown_by_controls fp page_node_id line_count b c -> grown_by_controls fp page_node_id line_count a c.
Proof.
  intros (c1 & -> & H1) (c2 & -> & H2). exists (c1 ++ c2). simpl.
  rewrite map_app, !app_assoc, forallb_app, H1, H2. now split.
Qed.

Lemma grown_fold (A : Type)
      (step : list CodeNode.t * list CodeRelationship.t -> A ->
              list CodeNode.t * list CodeRelationship.t) (l : list A) :
  Forall (fun x => forall acc, grown_by_controls fp page_node_id line_count acc (step acc x)) l ->
  forall acc, grown_by_controls fp page_node_id line_count acc (fold_left step l acc).
Proof.
  induction 1 as [|x l Hx _ IH]; intros acc; simpl; [apply grown_refl|].
  eapply grown_trans; [apply Hx | apply IH].
Qed.

Lemma control_match_grows n m acc :
  1 <= n <= line_count -> grown_by_controls fp page_node_id line_count acc (control_match fp page_node_id n acc m).
Proof.
  intros Hn. unfold control_match.
  exists [CodeNode.Make (fp ^^ ":control:" ^^ Re.group_of 2 m) (Re.group_of 2 m)
                        ASPX_CONTROL fp n [("control_type", JStr (Re.group_of 1 m))]].
  split; [reflexivity|].
  unfold aspx_control_wf, line_in_file.
  cbn [forallb is_type CodeNode.node_type CodeNode.file_path CodeNode.line_number
       CodeNode.id CodeNode.name].
  assert (H1 : (1 <=? n) = true) by (apply Nat.leb_le; lia).
  assert (H2 : (n <=? line_count) = true) by (apply Nat.leb_le; lia).
  now rewrite H1, H2, !String.eqb_refl.
Qed.

Lemma aspx_line_grows numbered acc :
  1 <= fst numbered <= line_count -> grown_by_controls fp page_node_id line_count acc (aspx_line fp page_node_id acc numbered).
Proof.
  destruct numbered as [n line]. simpl. intros Hn. unfold aspx_line.
  apply (grown_fold
           (fun acc pattern =>
              fold_left (control_match fp page_node_id n) (Re.finditer pattern line) acc)
           (l := control_patterns)).
  apply Forall_forall. intros pattern _ acc'.
  apply (grown_fold (control_match fp page_node_id n)).
  apply Forall_forall. intros m _ acc''.
  now apply control_match_grows.
Qed.

End AspxStructure.

(** X12.  The markup extractor always emits the page node first (id made
    of the path and the stem, line 1), followed by control nodes only,
    each on a line of the file and with an id made of the path and the
    control's name.  Its relationships are at most one code-behind edge
    from the page, followed by exactly one [contains] edge from the page
    to each control node, in the order of the control nodes. *)
Theorem aspx_result_structure (file_path : PyPath.t) (content : string) :
  let fp := PyPath.str file_path in
  let page_node_id := fp ^^ ":page:" ^^ PyPath.stem file_path in
  let out := Extract._analyze_aspx_detailed file_path content in
  exists controls codebehind,
    fst out =
      CodeNode.Make page_node_id (PyPath.stem file_path) ASPX_PAGE fp 1
                    [("page_type", JStr "aspx")] :: controls
    /\ forallb (aspx_control_wf fp (List.length (PyStr.split_on PyStr.newline content)))
               controls = true
    /\ snd out = codebehind ++ map (page_contains page_node_id) controls
    /\ List.length codebehind <= 1
    /\ forallb (is_codebehind_of page_node_id) codebehind = true.
Proof.
  cbv zeta. unfold Extract._analyze_aspx_detailed.
  match goal with
  | |- context [fold_left ?step ?l ?acc] =>
      assert (Hg : grown_by_controls
                     (PyPath.str file_path)
                     (PyPath.str file_path ^^ ":page:" ^^ PyPath.stem file_path)
                     (List.length (PyStr.split_on PyStr.newline content))
                     acc (fold_left step l acc));
        [apply (grown_fold step (l := l))|]
  end.
  - eapply Forall_impl; [|apply enumerate1_bounds].
    intros numbered Hn acc. now apply aspx_line_grows.
  - destruct Hg as (controls & -> & Hwf). exists controls.
    eexists. simpl. split; [reflexivity|]. split; [exact Hwf|].
    split; [reflexivity|].
    destruct (Re.re_search Extract.codebehind_re content); simpl.
    + split; [lia|]. unfold is_codebehind_of. simpl.
      now rewrite String.eqb_refl.
    + split; [lia | reflexivity].
Qed.

(** ** Schema-definition extractor: structure of the result *)

Section SqlStructure.

Import Extract.

Variable fp : string.
Variable line_count : nat.

Lemma sql_procedure_structure n line ns :
  1 <= n <= line_count ->
  sql_structure fp line_count ns ->
  sql_structure fp line_count (sql_procedure fp n line ns).
Proof.
  intros Hn [Hwf Hnd]. unfold sql_procedure.
  destruct (PyStr.startswith "CREATE PROCEDURE" line); [|now split].
  destruct (Re.re_search create_procedure_re line) as [m|]; [|now split].
  split.
  - rewrite forallb_app, Hwf. unfold sql_node_wf, line_in_file.
    cbn [forallb CodeNode.node_type CodeNode.file_path CodeNode.line_number
         CodeNode.id CodeNode.name].
    assert (H1 : (1 <=? n) = true) by (apply Nat.leb_le; lia).
    assert (H2 : (n <=? line_count) = true) by (apply Nat.leb_le; lia).
    now rewrite H1, H2, !String.eqb_refl.
  - rewrite filter_app. simpl. now rewrite app_nil_r.
Qed.

Lemma sql_table_structure ns m :
  sql_structure fp line_count ns -> sql_structure fp line_count (sql_table ns m).
Proof.
  intros [Hwf Hnd]. unfold sql_table.
  destruct (has_id _ ns) eqn:Eid; simpl; [now split|].
  split.
  - rewrite forallb_app, Hwf. unfold sql_node_wf. simpl.
    now rewrite String.eqb_refl.
  - rewrite filter_app, map_app. simpl.
    apply NoDup_app; [exact Hnd | repeat constructor; simpl; tauto |].
    intros x Hx [<-|[]]. apply has_id_false_not_In in Eid. apply Eid.
    apply in_map_iff in Hx. destruct Hx as (a & Ha & Hin).
    apply filter_In in Hin. apply in_map_iff. exists a. tauto.
Qed.

Lemma sql_fold_structure (A : Type) (step : list CodeNode.t -> A -> list CodeNode.t)
      (l : list A) :
  Forall (fun x => forall ns, sql_structure fp line_count ns ->
                              sql_structure fp line_count (step ns x)) l ->
  forall ns, sql_structure fp line_count ns ->
             sql_structure fp line_count (fold_left step l ns).
Proof.
  induction 1 as [|x l Hx _ IH]; intros ns H; simpl; [exact H|].
  now apply IH, Hx.
Qed.

Lemma sql_line_structure ns numbered :
  1 <= fst numbered <= line_count ->
  sql_structure fp line_count ns -> sql_structure fp line_count (sql_line fp ns numbered).
Proof.
  destruct numbered as [n line]. simpl. intros Hn H. unfold sql_line.
  apply (sql_fold_structure
           (fun nodes pattern =>
              fold_left sql_table
                        (Re.finditer pattern (PyStr.strip (PyStr.upper line))) nodes)
           (l := table_patterns)); [|now apply sql_procedure_structure].
  apply Forall_forall. intros pattern _ ns' H'.
  apply (sql_fold_structure sql_table); [|exact H'].
  apply Forall_forall. intros m _ ns''. apply sql_table_structure.
Qed.

End SqlStructure.

(** X13.  The schema-definition extractor emits no relationship and only
    stored-procedure and table nodes.  A stored-procedure node carries
    the path of the file, a line number between 1 and the number of
    lines, and the id [database:procedure:] followed by its name; a
    table node carries the file path [database], line 0 and the id
    [database:table:] followed by its name.  Within one file no two
    table nodes share an id. *)
Theorem sql_result_structure (file_path : PyPath.t) (content : string) :
  let out := Extract._analyze_sql_detailed file_path content in
  snd out = []
  /\ forallb (sql_node_wf (PyPath.str file_path)
                          (List.length (PyStr.split_on PyStr.newline content)))
             (fst out) = true
  /\ NoDup (map CodeNode.id (filter (is_type TABLE) (fst out))).
Proof.
  cbv zeta. unfold Extract._analyze_sql_detailed. simpl.
  split; [reflexivity|].
  apply (sql_fold_structure (Extract.sql_line (PyPath.str file_path))).
  - eapply Forall_impl; [|apply enumerate1_bounds].
    intros numbered Hn ns. now apply sql_line_structure.
  - split; [reflexivity | constructor].
Qed.

(** ** Pattern recognizer: what the patterns are made of *)

(** X14.  A page gets a pattern exactly when some relationship links it
    to a stored node.  The pattern's id is [page_] followed by the
    lower-cased page name, its type is [aspx_page], its nodes are the
    page followed by the linked stored nodes, one for each linking
    relationship in the order of the stored relationships, and its
    relationships are all stored relationships that have the page's id
    at one end, whether or not the other end is stored. *)
Theorem page_pattern_content (self : server) (page_node : CodeNode.t) :
  option_map pattern_view (page_pattern self page_node) =
  if 0 <? List.length (links self page_node) then
    Some ("page_" ^^ PyStr.lower (CodeNode.name page_node), "aspx_page",
          page_node :: links self page_node,
          filter (fun rel => touches rel (CodeNode.id page_node)) (relationships self))
  else None.
Proof.
  unfold page_pattern, related. rewrite relate_fold. simpl fst. simpl snd.
  fold (links self page_node). simpl List.length.
  now destruct (links self page_node).
Qed.

Lemma filter_disjoint_length (A : Type) (f g : A -> bool) (l : list A) :
  (forall x, f x = true -> g x = false) ->
  List.length (filter f l) + List.length (filter g l) <= List.length l.
Proof.
  intros H. induction l as [|x l IH]; simpl; [lia|].
  destruct (f x) eqn:Ef.
  - rewrite (H _ Ef). simpl. lia.
  - destruct (g x); simpl; lia.
Qed.

Lemma flat_option_length (A B : Type) (f : A -> option B) (l : list A) :
  List.length (flat_map (fun x => list_of_option (f x)) l) <= List.length l.
Proof.
  induction l as [|x l IH]; simpl; [lia|].
  rewrite length_app. destruct (f x); simpl; lia.
Qed.

Lemma crud_patterns_bound (self : server) :
  List.length (_find_crud_patterns self) <=
  List.length (filter is_manager (dict_values (nodes self))).
Proof.
  destruct (crud_patterns_by_group self) as (-> & Hk & _ & Hin).
  rewrite length_map.
  replace (List.length (entity_groups_of self))
    with (List.length (dict_keys (entity_groups_of self)))
    by apply length_map.
  rewrite <- (length_map entity_of (filter is_manager (dict_values (nodes self)))).
  apply NoDup_incl_length; [exact Hk|].
  intros e He. apply Hin in He. unfold manager_group, members in He.
  destruct (filter _ (dict_values (nodes self))) as [|n rest] eqn:Ef; [congruence|].
  assert (Hn : In n (filter (fun n => is_manager n && String.eqb (entity_of n) e)
                            (dict_values (nodes self))))
    by (rewrite Ef; now left).
  apply filter_In in Hn. destruct Hn as [Hn Hc].
  apply andb_true_iff in Hc. destruct Hc as [Hm He'].
  apply String.eqb_eq in He'. subst e.
  apply in_map, filter_In. now split.
Qed.

(** X15.  The recognizer returns the CRUD patterns first, then the page
    patterns, and no pattern of any other type.  There are at most as
    many CRUD patterns as stored manager classes and at most as many
    page patterns as stored pages, so never more patterns than stored
    nodes. *)
Theorem identified_patterns_are_bounded (self : server) :
  let found := _identify_patterns self in
  found = filter (has_pattern_type "database_crud") found
          ++ filter (has_pattern_type "aspx_page") found
  /\ List.length (filter (has_pattern_type "database_crud") found) <=
     List.length (filter is_manager (dict_values (nodes self)))
  /\ List.length (filter (has_pattern_type "aspx_page") found) <=
     List.length (aspx_pages self)
  /\ List.length found <= List.length (nodes self).
Proof.
  cbv zeta. unfold _identify_patterns.
  assert (Hc : forall t,
             filter (has_pattern_type t) (_find_crud_patterns self) =
             if String.eqb "database_crud" t then _find_crud_patterns self else []).
  { intros t. destruct (crud_patterns_by_group self) as (-> & _).
    remember (String.eqb "database_crud" t) as b eqn:Eb.
    induction (entity_groups_of self) as [|[e g] l IH]; cbn [map filter].
    - now destruct b.
    - change (has_pattern_type t (crud_pattern self (fst (e, g)) (snd (e, g))))
        with (String.eqb "database_crud" t).
      rewrite <- Eb, IH. now destruct b. }
  assert (Hp : forall t,
             filter (has_pattern_type t) (_find_page_patterns self) =
             if String.eqb "aspx_page" t then _find_page_patterns self else []).
  { intros t. rewrite page_patterns_by_page.
    remember (String.eqb "aspx_page" t) as b eqn:Eb.
    induction (aspx_pages self) as [|pg l IH]; cbn [flat_map filter].
    - now destruct b.
    - rewrite filter_app, IH. unfold page_pattern.
      destruct (related self pg) as [ns rs].
      destruct (1 <? List.length ns); cbn [list_of_option filter].
      + match goal with
        | |- context [has_pattern_type t ?p] =>
            change (has_pattern_type t p) with (String.eqb "aspx_page" t)
        end.
        rewrite <- Eb. now destruct b.
      + now destruct b. }
  rewrite !filter_app, !Hc, !Hp. simpl. rewrite app_nil_r.
  pose proof (crud_patterns_bound self) as Hcb.
  assert (Hpb : List.length (_find_page_patterns self) <= List.length (aspx_pages self))
    by (rewrite page_patterns_by_page; apply flat_option_length).
  repeat split; try assumption.
  rewrite length_app.
  replace (List.length (nodes self)) with (List.length (dict_values (nodes self)))
    by apply length_map.
  unfold aspx_pages in Hpb.
  pose proof (filter_disjoint_length is_manager
                (fun node => NodeType_eqb (CodeNode.node_type node) ASPX_PAGE)
                (dict_values (nodes self))) as Hd.
  assert (Hdis : forall x, is_manager x = true ->
                           NodeType_eqb (CodeNode.node_type x) ASPX_PAGE = false).
  { intros x Hx. unfold is_manager in Hx. apply andb_true_iff in Hx.
    destruct Hx as [Hx _]. now destruct (CodeNode.node_type x). }
  specialize (Hd Hdis). lia.
Qed.

Lemma distinct_In x xs : In x (distinct xs) <-> In x xs.
Proof.
  induction xs as [|y ys IH]; simpl; [tauto|].
  rewrite filter_In, IH. split.
  - intros [H|[H _]]; tauto.
  - intros [H|H]; [now left|].
    destruct (String.eqb y x) eqn:E.
    + apply String.eqb_eq in E. now left.
    + right. now split.
Qed.

Lemma distinct_NoDup xs : NoDup (distinct xs).
Proof.
  induction xs as [|y ys IH]; simpl; constructor.
  - rewrite filter_In. intros [_ H]. now rewrite String.eqb_refl in H.
  - now apply NoDup_filter.
Qed.

(** X16.  The [files] of every recognized pattern are the file paths of
    its nodes, each listed once. *)
Theorem pattern_files_are_deduplicated (self : server) :
  Forall (fun p =>
            NoDup (CodePattern.files p)
            /\ forall f, In f (CodePattern.files p) <->
                         In f (map CodeNode.file_path (CodePattern.nodes p)))
         (_identify_patterns self).
Proof.
  unfold _identify_patterns. apply Forall_app. split.
  - destruct (crud_patterns_by_group self) as (-> & _).
    apply Forall_map, Forall_forall. intros [e g] _. simpl.
    split; [apply distinct_NoDup | intros f; apply distinct_In].
  - rewrite page_patterns_by_page. apply Forall_flat_map, Forall_forall.
    intros pg _. unfold page_pattern. destruct (related self pg) as [ns rs].
    destruct (1 <? List.length ns); simpl; constructor; [|constructor].
    simpl. split; [apply distinct_NoDup | intros f; apply distinct_In].
Qed.

(** ** Summaries *)

Section SummaryShape.

Variable A : Type.
Variable type_of : A -> string.

Lemma bump_wf seen t (summary : dict nat) :
  summary_wf seen summary -> summary_wf (seen ++ [t]) (bump summary t).
Proof.
  intros (Hnd & Hpos & Hmem). unfold bump. repeat split.
  - now apply dict_keys_NoDup_set.
  - apply dict_set_Forall; [exact Hpos | simpl; lia].
  - rewrite dict_mem_set, in_app_iff. intros H.
    apply orb_true_iff in H. destruct H as [H|H].
    + apply String.eqb_eq in H. subst. right. now left.
    + left. now apply Hmem.
  - rewrite dict_mem_set, in_app_iff. intros [H|[H|[]]].
    + apply orb_true_iff. right. now apply Hmem.
    + subst. now rewrite String.eqb_refl.
Qed.

Lemma tally_wf xs :
  summary_wf (map type_of xs) (fold_left (fun tc x => bump tc (type_of x)) xs []).
Proof.
  induction xs as [|x xs IH] using rev_ind.
  - repeat split; simpl; try constructor; try discriminate; tauto.
  - rewrite fold_left_app, map_app. simpl. now apply bump_wf.
Qed.

End SummaryShape.

(** X17.  Both summaries have exactly one entry for each type that
    occurs among the stored nodes (or relationships), no entry for a
    type that does not occur, and every count is at least 1; on an
    empty store they are empty. *)
Theorem summaries_list_occurring_types (self : server) :
  summary_wf (map (fun n => NodeType_value (CodeNode.node_type n))
                  (dict_values (nodes self)))
             (get_node_types_summary self)
  /\ summary_wf (map (fun r => RelationshipType_value
                                  (CodeRelationship.relationship_type r))
                     (relationships self))
                (get_relationship_types_summary self).
Proof.
  split.
  - apply (tally_wf (fun n => NodeType_value (CodeNode.node_type n))).
  - apply (tally_wf (fun r => RelationshipType_value
                                (CodeRelationship.relationship_type r))).
Qed.

(** ** Export: nothing is lost *)

Lemma map_injective (A B : Type) (f : A -> B) :
  (forall x y, f x = f y -> x = y) ->
  forall l l', map f l = map f l' -> l = l'.
Proof.
  intros Hf. induction l as [|x l IH]; intros [|y l'] H; simpl in H;
    try discriminate; [reflexivity|].
  injection H as Hx Hl. now rewrite (Hf _ _ Hx), (IH _ Hl).
Qed.

Lemma NodeType_value_injective a b : NodeType_value a = NodeType_value b -> a = b.
Proof. destruct a, b; simpl; intros H; try discriminate H; reflexivity. Qed.

Lemma RelationshipType_value_injective a b :
  RelationshipType_value a = RelationshipType_value b -> a = b.
Proof. destruct a, b; simpl; intros H; try discriminate H; reflexivity. Qed.

Lemma node_to_dict_injective a b :
  JDict (CodeNode.to_dict a) = JDict (CodeNode.to_dict b) -> a = b.
Proof.
  destruct a, b. unfold CodeNode.to_dict. simpl. intros H.
  injection H as -> -> Ht -> -> ->.
  now rewrite (NodeType_value_injective _ _ Ht).
Qed.

Lemma relationship_to_dict_injective a b :
  JDict (CodeRelationship.to_dict a) = JDict (CodeRelationship.to_dict b) -> a = b.
Proof.
  destruct a, b. unfold CodeRelationship.to_dict. simpl. intros H.
  injection H as -> -> Ht -> ->.
  now rewrite (RelationshipType_value_injective _ _ Ht).
Qed.

Lemma JStr_injective a b : JStr a = JStr b -> a = b.
Proof. now intros [= ->]. Qed.

Lemma pattern_to_dict_injective a b :
  JDict (CodePattern.to_dict a) = JDict (CodePattern.to_dict b) -> a = b.
Proof.
  destruct a, b. unfold CodePattern.to_dict. simpl. intros H.
  injection H as -> -> Hf Hn Hr -> ->.
  apply (@map_injective _ _ _ JStr_injective) in Hf.
  apply (@map_injective _ _ _ node_to_dict_injective) in Hn.
  apply (@map_injective _ _ _ relationship_to_dict_injective) in Hr.
  now subst.
Qed.

(** X18.  The export document loses nothing: two servers that export the
    same document hold the same nodes in the same order, the same
    relationships and the same patterns. *)
Theorem export_determines_graph (self other : server) :
  export_graph_data self = export_graph_data other ->
  dict_values (nodes self) = dict_values (nodes other)
  /\ relationships self = relationships other
  /\ patterns self = patterns other.
Proof.
  unfold export_graph_data. intros H.
  injection H as Hn Hr Hp _.
  apply (@map_injective _ _ _ node_to_dict_injective) in Hn.
  apply (@map_injective _ _ _ relationship_to_dict_injective) in Hr.
  apply (@map_injective _ _ _ pattern_to_dict_injective) in Hp.
  now repeat split.
Qed.

(** X18 at work: the keys of the store are not exported, so a server and
    its rekeyed copy export the same document. *)
Lemma export_determines_graph_witness :
  export_graph_data analyzed_twice = export_graph_data (rekeyed analyzed_twice)
  /\ dict_values (nodes analyzed_twice) = dict_values (nodes (rekeyed analyzed_twice))
  /\ relationships analyzed_twice = relationships (rekeyed analyzed_twice)
  /\ patterns analyzed_twice = patterns (rekeyed analyzed_twice).
Proof.
  assert (H : export_graph_data analyzed_twice =
              export_graph_data (rekeyed analyzed_twice))
    by (vm_compute; reflexivity).
  split; [exact H|].
  exact (@export_determines_graph analyzed_twice (rekeyed analyzed_twice) H).
Defined.

(** ** Tool interface *)

Lemma unknown_tool_message_differs key tool_name :
  Tools.key_error key <> "Unknown tool: " ^^ tool_name.
Proof. unfold Tools.key_error. simpl. discriminate. Qed.

(** X19.  [handle_call_tool] raises the unknown-tool error, naming the
    tool, exactly for the names that [handle_list_tools] does not list;
    the server is then left as it was. *)
Theorem unknown_tool_iff_not_listed
        (fs : file_system) (self : server) (tool_name : string)
        (args : Tools.arguments) :
  Tools.handle_call_tool fs self tool_name args =
    (self, Raised ("Unknown tool: " ^^ tool_name))
  <-> listed tool_name = false.
Proof.
  unfold Tools.handle_call_tool, listed. cbn [existsb Tools.handle_list_tools Tools.name].
  rewrite !(String.eqb_sym _ tool_name), orb_false_r.
  destruct (String.eqb tool_name "analyze_specific_files"); cbn [orb].
  { split; [|discriminate]. destruct (Tools.file_paths args) as [paths|].
    - destruct (analyze_specific_files fs self paths). discriminate.
    - intros H.
      assert (H' : Tools.key_error "file_paths" = "Unknown tool: " ^^ tool_name)
        by congruence.
      now apply unknown_tool_message_differs in H'. }
  destruct (String.eqb tool_name "get_node_types_summary"); cbn [orb];
    [split; discriminate|].
  destruct (String.eqb tool_name "get_relationship_types_summary"); cbn [orb];
    [split; discriminate|].
  destruct (String.eqb tool_name "export_graph_data"); cbn [orb];
    [split; discriminate|].
  destruct (String.eqb tool_name "find_patterns_by_type").
  { split; [|discriminate]. destruct (Tools.pattern_type args).
    - discriminate.
    - intros H.
      assert (H' : Tools.key_error "pattern_type" = "Unknown tool: " ^^ tool_name)
        by congruence.
      now apply unknown_tool_message_differs in H'. }
  split; reflexivity.
Qed.

(** X20.  A call of a listed tool whose arguments hold the keys the
    tool's schema requires returns a result: it raises neither a key
    error nor the unknown-tool error. *)
Theorem listed_tool_with_required_arguments_returns
        (fs : file_system) (self : server) (args : Tools.arguments) :
  Forall (fun tool =>
            has_required tool args = true ->
            is_returned (snd (Tools.handle_call_tool fs self (Tools.name tool) args))
            = true)
         Tools.handle_list_tools.
Proof.
  apply Forall_forall. intros tool Hin Hreq. unfold Tools.handle_list_tools in Hin.
  simpl in Hin.
  destruct Hin as [<-|[<-|[<-|[<-|[<-|[]]]]]];
    unfold has_required in Hreq; unfold Tools.handle_call_tool; simpl in *;
    try reflexivity.
  - unfold Tools.has_key in Hreq. simpl in Hreq.
    destruct (Tools.file_paths args) as [paths|]; [|discriminate].
    now destruct (analyze_specific_files fs self paths).
  - unfold Tools.has_key in Hreq. simpl in Hreq.
    destruct (Tools.pattern_type args); [reflexivity | discriminate].
Qed.

Lemma handle_call_tool_keeps_patterns fs self tool_name args :
  patterns (fst (Tools.handle_call_tool fs self tool_name args)) = patterns self.
Proof.
  unfold Tools.handle_call_tool.
  repeat match goal with
         | |- context [if ?b then _ else _] => destruct b
         end; try reflexivity.
  - destruct (Tools.file_paths args) as [paths|]; [|reflexivity].
    rewrite <- (analyze_keeps_patterns fs self paths).
    now destruct (analyze_specific_files fs self paths).
  - now destruct (Tools.pattern_type args).
Qed.

Lemma serve_keeps_patterns calls : forall self,
  patterns (Tools.serve self calls) = patterns self.
Proof.
  unfold Tools.serve. induction calls as [|c calls IH]; intros self; simpl;
    [reflexivity|].
  now rewrite IH, handle_call_tool_keeps_patterns.
Qed.

(** X21.  No sequence of tool calls ever stores a pattern: on a server
    that started empty, after any requests whatever,
    [find_patterns_by_type] answers with the empty list for every type
    and the exported document holds no pattern. *)
Theorem no_request_sequence_stores_patterns
        (calls : list Tools.call) (fs : file_system) (t : string) :
  let self := Tools.serve new_server calls in
  Tools.handle_call_tool fs self "find_patterns_by_type"
                         (Tools.MkArguments None None (Some t)) =
    (self, Returned (JList []))
  /\ doc_list "patterns" (export_graph_data self) = [].
Proof.
  cbv zeta. unfold Tools.handle_call_tool, find_patterns_by_type, export_graph_data,
              doc_list.
  simpl. now rewrite serve_keeps_patterns.
Qed.

(** ** Procedural-code extractor: comment lines *)

Lemma comment_line_form line :
  PyStr.startswith "//" line = true ->
  exists rest, line = String "/"%char (String "/"%char rest).
Proof.
  unfold PyStr.startswith. intros H. apply prefix_split in H.
  destruct H as [rest ->]. now exists rest.
Qed.

Lemma comment_line_scan fp st numbered :
  PyStr.startswith "//" (PyStr.strip (snd numbered)) = true ->
  Extract.in_method st = false ->
  Extract.cs_relationships st = [] ->
  forallb (is_type STORED_PROCEDURE) (Extract.cs_nodes st) = true ->
  let st' := Extract.cs_line fp st numbered in
  Extract.in_method st' = false
  /\ Extract.cs_relationships st' = []
  /\ forallb (is_type STORED_PROCEDURE) (Extract.cs_nodes st') = true.
Proof.
  destruct numbered as [n line]. simpl snd. intros Hc Hm Hr Hn.
  cbv zeta. unfold Extract.cs_line.
  pose proof Hc as Hform. apply comment_line_form in Hform.
  destruct Hform as [rest Hrest].
  assert (Hns : forall s, Extract.scan_namespace fp n (PyStr.strip line) s = s)
    by (intros s; unfold Extract.scan_namespace; now rewrite Hrest).
  assert (Hcl : forall s, Extract.scan_class fp n (PyStr.strip line) s = s)
    by (intros s; unfold Extract.scan_class; now rewrite Hrest).
  assert (Hme : forall s, Extract.scan_method fp n (PyStr.strip line) s = s).
  { intros s. unfold Extract.scan_method. rewrite Hc, andb_false_r.
    destruct (Re.re_match Extract.method_re (PyStr.strip line)); [|reflexivity].
    now destruct (Extract.current_class s). }
  rewrite Hns, Hcl, Hme. unfold Extract.scan_database_access, Extract.scan_braces.
  cbn [Extract.cs_nodes Extract.cs_relationships Extract.in_method
       Extract.current_class].
  destruct (existsb _ Extract.data_access_keywords); [|now repeat split].
  destruct (Re.re_search Extract.quoted_ident_re (PyStr.strip line));
    [|now repeat split].
  destruct (Extract.is_proc_name _); [|now repeat split].
  cbn [Extract.cs_nodes Extract.cs_relationships Extract.in_method].
  rewrite Hm, Hr. repeat split.
  - now destruct (Extract.current_class st).
  - rewrite forallb_app, Hn. now destruct (negb _).
Qed.

(** X22.  Commented-out declarations are not extracted: when every line
    of a procedural file starts, after stripping, with two slashes, the
    extractor emits no namespace, class or method node and no
    relationship.  Stored-procedure nodes are still created from
    data-access idioms inside such lines. *)
Theorem commented_lines_declare_nothing (file_path : PyPath.t) (content : string) :
  Forall (fun line => PyStr.startswith "//" (PyStr.strip line) = true)
         (PyStr.split_on PyStr.newline content) ->
  let out := Extract._analyze_csharp_detailed file_path content in
  forallb (is_type STORED_PROCEDURE) (fst out) = true /\ snd out = [].
Proof.
  intros Hlines. cbv zeta. unfold Extract._analyze_csharp_detailed, Extract.cs_scan_lines.
  simpl fst. simpl snd.
  assert (Hnum : Forall (fun x => PyStr.startswith "//" (PyStr.strip (snd x)) = true)
                        (Extract.enumerate1 (PyStr.split_on PyStr.newline content))).
  { apply Forall_forall. intros [n line] Hin. simpl.
    unfold Extract.enumerate1 in Hin. apply in_combine_r in Hin.
    rewrite Forall_forall in Hlines. now apply Hlines. }
  enough (H : forall numbered st,
             Forall (fun x => PyStr.startswith "//" (PyStr.strip (snd x)) = true)
                    numbered ->
             Extract.in_method st = false ->
             Extract.cs_relationships st = [] ->
             forallb (is_type STORED_PROCEDURE) (Extract.cs_nodes st) = true ->
             forallb (is_type STORED_PROCEDURE)
                     (Extract.cs_nodes
                        (fold_left (Extract.cs_line (PyPath.str file_path)) numbered st))
             = true
             /\ Extract.cs_relationships
                  (fold_left (Extract.cs_line (PyPath.str file_path)) numbered st) = [])
    by (apply H; [exact Hnum | reflexivity..]).
  induction numbered as [|x xs IH]; intros st Hall Hm Hr Hn; simpl; [now split|].
  inversion Hall as [|? ? Hx Hxs]; subst.
  destruct (comment_line_scan (PyPath.str file_path) st x Hx Hm Hr Hn)
    as (Hm' & Hr' & Hn').
  now apply IH.
Qed.

(** X22 at work: of a commented-out class that saves through a stored
    procedure only the stored procedure is extracted. *)
Lemma commented_lines_declare_nothing_witness :
  let out := Extract._analyze_csharp_detailed (PyPath.Path "Legacy/Orders.cs")
                                              commented_cs in
  map node_view (fst out) =
    [(STORED_PROCEDURE, "sp_SaveOrder", "database:procedure:sp_SaveOrder")]
  /\ forallb (is_type STORED_PROCEDURE) (fst out) = true
  /\ snd out = [].
Proof.
  split; [vm_compute; reflexivity|].
  apply (commented_lines_declare_nothing (PyPath.Path "Legacy/Orders.cs") commented_cs).
  vm_compute. repeat constructor.
Defined.
